(** * roster-anki-flash-cards: the roster pipeline, embedded and verified

    The program reads a saved class-list page (already parsed by
    BeautifulSoup), builds one record per student row, copies each photo
    to a readable file name and assembles a genanki deck.  The embedding
    follows [Roster.read_roster], [Roster.rename_photos],
    [Roster.make_flashcards] and [MyNote.guid] statement by statement.

    Python [str] values are modelled by [string], one [ascii] per code
    point, so the development covers text whose code points are below
    256 (Latin-1). *)

From Stdlib Require Import ZArith String Ascii List Bool Lia.
From stdpp Require Import base option list gmap strings.

Local Open Scope Z_scope.

(** ** Python string operations *)

Module PyStr.

Definition chr (n : nat) : string := String (ascii_of_nat n) "".

(** The two characters that cannot be written inside a literal. *)
Definition dquote : string := chr 34.
Definition newline : string := chr 10.

(** [s.split(sep)] for a one-character separator: never empty. *)
Fixpoint split (sep : ascii) (s : string) : list string :=
  match s with
  | "" => [""]
  | String c s' =>
      if Ascii.eqb c sep then "" :: split sep s'
      else match split sep s' with
           | [] => [String c ""]
           | w :: ws => String c w :: ws
           end
  end.

(** [sep.join(l)]. *)
Fixpoint join (sep : string) (l : list string) : string :=
  match l with
  | [] => ""
  | x :: l' =>
      match l' with
      | [] => x
      | _ :: _ => x +:+ sep +:+ join sep l'
      end
  end.

(** [s.replace(c, by)] for a one-character pattern. *)
Fixpoint replace (c : ascii) (by_ : string) (s : string) : string :=
  match s with
  | "" => ""
  | String a s' =>
      (if Ascii.eqb a c then by_ else String a "") +:+ replace c by_ s'
  end.

(** [str.lower] on code points below 256: A-Z and the accented capitals
    0xC0-0xDE (the multiplication sign 0xD7 apart) move up by 32. *)
Definition lower_char (c : ascii) : ascii :=
  let n := nat_of_ascii c in
  if ((65 <=? n) && (n <=? 90) ||
      (192 <=? n) && (n <=? 222) && negb (n =? 215))%nat
  then ascii_of_nat (n + 32) else c.

Fixpoint lower (s : string) : string :=
  match s with
  | "" => ""
  | String c s' => String (lower_char c) (lower s')
  end.

(** [str.isspace] on one code point below 256. *)
Definition is_space (c : ascii) : bool :=
  let n := nat_of_ascii c in
  ((9 <=? n) && (n <=? 13) || (28 <=? n) && (n <=? 32) ||
   (n =? 133) || (n =? 160))%nat.

Fixpoint lstrip (s : string) : string :=
  match s with
  | "" => ""
  | String c s' => if is_space c then lstrip s' else s
  end.

(** Drops trailing white space: a character is kept when something
    non-blank follows it or it is itself non-blank. *)
Fixpoint rstrip (s : string) : string :=
  match s with
  | "" => ""
  | String c s' =>
      match rstrip s' with
      | "" => if is_space c then "" else String c ""
      | r => String c r
      end
  end.

(** [s.strip()]. *)
Definition strip (s : string) : string := rstrip (lstrip s).

(** [s.split()] without argument: the maximal runs of non-blank
    characters.  [cur] is the run being read, reversed. *)
Fixpoint split_ws_aux (cur : list ascii) (s : string) : list string :=
  let flush := match cur with
               | [] => []
               | _ :: _ => [string_of_list_ascii (rev cur)]
               end in
  match s with
  | "" => flush
  | String c s' =>
      if is_space c then flush ++ split_ws_aux [] s'
      else split_ws_aux (c :: cur) s'
  end.

Definition split_ws (s : string) : list string := split_ws_aux [] s.

(** [p] is a prefix of [s]. *)
Fixpoint starts_with (p s : string) : bool :=
  match p, s with
  | "", _ => true
  | String a p', String b s' => Ascii.eqb a b && starts_with p' s'
  | String _ _, "" => false
  end.

(** [sub in s]. *)
Fixpoint contains (sub s : string) : bool :=
  starts_with sub s ||
  match s with
  | "" => false
  | String _ s' => contains sub s'
  end.

(** The character [c] occurs in [s]. *)
Fixpoint has_char (c : ascii) (s : string) : bool :=
  match s with
  | "" => false
  | String a s' => Ascii.eqb a c || has_char c s'
  end.

(** [repr] of a [str]. The text is quoted with ' unless it holds a ' and
    no double quote; backslash, the quote in use, tab, newline and
    carriage return are escaped, and the other non-printable code points
    (controls, 0x7F-0xA0, 0xAD) are written \xNN. *)
Definition hex_digit (n : nat) : string :=
  chr (if (n <? 10)%nat then 48 + n else 87 + n).

Definition printable (c : ascii) : bool :=
  let n := nat_of_ascii c in
  ((32 <=? n) && (n <? 127) || (161 <=? n) && negb (n =? 173))%nat.

Definition repr_char (quote : ascii) (c : ascii) : string :=
  let n := nat_of_ascii c in
  if Ascii.eqb c "\" then "\\"
  else if Ascii.eqb c quote then "\" +:+ String c ""
  else if (n =? 9)%nat then "\t"
  else if (n =? 10)%nat then "\n"
  else if (n =? 13)%nat then "\r"
  else if printable c then String c ""
  else "\x" +:+ hex_digit (n / 16) +:+ hex_digit (n mod 16).

Fixpoint repr_body (quote : ascii) (s : string) : string :=
  match s with
  | "" => ""
  | String c s' => repr_char quote c +:+ repr_body quote s'
  end.

Definition repr (s : string) : string :=
  let q := if contains "'" s && negb (contains dquote s)
           then ascii_of_nat 34 else "'"%char in
  String q "" +:+ repr_body q s +:+ String q "".

End PyStr.

(** ** The interpreter's [hash] on [str]

    CPython 3.11 hashes the code points of a string (one byte each for
    text below 256) with SipHash-1-3 under a 128-bit key that is drawn
    when the process starts: at random by default, from a linear
    congruential generator when PYTHONHASHSEED is a non-zero number, and
    all zero when it is 0. *)

Module PyHash.

Definition mask64 : Z := 0xffffffffffffffff.
Definition wrap64 (x : Z) : Z := Z.land x mask64.

Definition rotl (x : Z) (b : Z) : Z :=
  wrap64 (Z.lor (Z.shiftl x b) (Z.shiftr x (64 - b))).

(** The four lanes v0..v3 of the SipHash state. *)
Record lanes := Lanes { v0 : Z; v1 : Z; v2 : Z; v3 : Z }.

(** HALF_ROUND(a,b,c,d,s,t) returns the new (a,b,c,d). *)
Definition half_round (a b c d s t : Z) : Z * Z * Z * Z :=
  let a := wrap64 (a + b) in
  let c := wrap64 (c + d) in
  let b := Z.lxor (rotl b s) a in
  let d := Z.lxor (rotl d t) c in
  let a := rotl a 32 in
  (a, b, c, d).

(** SINGLE_ROUND: HALF_ROUND(v0,v1,v2,v3,13,16); HALF_ROUND(v2,v1,v0,v3,17,21). *)
Definition single_round (v : lanes) : lanes :=
  let '(a0, a1, a2, a3) := half_round (v0 v) (v1 v) (v2 v) (v3 v) 13 16 in
  let '(b2, b1, b0, b3) := half_round a2 a1 a0 a3 17 21 in
  Lanes b0 b1 b2 b3.

(** Little-endian value of a run of bytes. *)
Fixpoint le_bytes (bs : list Z) : Z :=
  match bs with
  | [] => 0
  | b :: bs' => b + 256 * le_bytes bs'
  end.

Definition absorb (v : lanes) (m : Z) : lanes :=
  let v := Lanes (v0 v) (v1 v) (v2 v) (Z.lxor (v3 v) m) in
  let v := single_round v in
  Lanes (Z.lxor (v0 v) m) (v1 v) (v2 v) (v3 v).

(** The [while (src_sz >= 8)] loop; returns the state and the bytes left
    over (fewer than eight). [fuel] bounds the number of words. *)
Fixpoint words (fuel : nat) (v : lanes) (bs : list Z) : lanes * list Z :=
  match fuel with
  | O => (v, bs)
  | S fuel' =>
      if (8 <=? length bs)%nat
      then words fuel' (absorb v (le_bytes (take 8 bs))) (drop 8 bs)
      else (v, bs)
  end.

Definition siphash13 (k0 k1 : Z) (bs : list Z) : Z :=
  let b := wrap64 (Z.shiftl (Z.of_nat (length bs)) 56) in
  let v := Lanes (Z.lxor k0 0x736f6d6570736575) (Z.lxor k1 0x646f72616e646f6d)
                 (Z.lxor k0 0x6c7967656e657261) (Z.lxor k1 0x7465646279746573) in
  let '(v, tail) := words (length bs) v bs in
  let b := Z.lor b (le_bytes tail) in
  let v := absorb v b in
  let v := Lanes (v0 v) (v1 v) (Z.lxor (v2 v) 0xff) (v3 v) in
  let v := single_round (single_round (single_round v)) in
  Z.lxor (Z.lxor (v0 v) (v1 v)) (Z.lxor (v2 v) (v3 v)).

Definition bytes_of (s : string) : list Z :=
  map (fun c => Z.of_nat (nat_of_ascii c)) (list_ascii_of_string s).

(** The key of one interpreter process. *)
Record secret := Secret { k0 : Z; k1 : Z }.

(** [hash(s)] for a [str]: empty text hashes to 0, the 64-bit result is
    read as a signed number, and -1 is replaced by -2. *)
Definition str_hash (k : secret) (s : string) : Z :=
  match s with
  | "" => 0
  | _ =>
      let u := siphash13 (k0 k) (k1 k) (bytes_of s) in
      let x := if u <? 2 ^ 63 then u else u - 2 ^ 64 in
      if x =? -1 then -2 else x
  end.

(** The key under PYTHONHASHSEED=seed: [lcg_urandom] fills the secret
    byte by byte; seed 0 gives the all-zero key. *)
Fixpoint lcg_urandom (n : nat) (x : Z) : list Z :=
  match n with
  | O => []
  | S n' =>
      let x := Z.land (x * 214013 + 2531011) 0xffffffff in
      Z.land (Z.shiftr x 16) 0xff :: lcg_urandom n' x
  end.

Definition seeded (seed : Z) : secret :=
  if seed =? 0 then Secret 0 0
  else let bs := lcg_urandom 16 seed in
       Secret (le_bytes (take 8 bs)) (le_bytes (drop 8 bs)).

End PyHash.

(** ** genanki's note identifier

    [genanki.guid_for] joins the printed values with two underscores,
    digests the UTF-8 text with SHA-256 and writes the first eight bytes
    of the digest in Anki's base 91. *)

Module Genanki.

Definition wrap32 (x : Z) : Z := Z.land x 0xffffffff.

Definition rotr (x n : Z) : Z :=
  wrap32 (Z.lor (Z.shiftr x n) (Z.shiftl x (32 - n))).

(** The first [n] primes, by trial division from [k] on. *)
Fixpoint primes_from (fuel : nat) (k : Z) (found : list Z) (n : nat) : list Z :=
  match fuel with
  | O => found
  | S fuel' =>
      if (length found =? n)%nat then found
      else if forallb (fun p => negb (k mod p =? 0)) found
           then primes_from fuel' (k + 1) (found ++ [k]) n
           else primes_from fuel' (k + 1) found n
  end.

Definition first_primes (n : nat) : list Z := primes_from 320 2 [] n.

(** The integer cube root, one bit at a time from bit [bit] down. *)
Fixpoint cube_root (bit : nat) (r n : Z) : Z :=
  match bit with
  | O => r
  | S bit' =>
      let r' := r + 2 ^ Z.of_nat bit' in
      if r' * r' * r' <=? n then cube_root bit' r' n else cube_root bit' r n
  end.

(** The round constants: the first 32 bits of the fractional parts of
    the cube roots of the first 64 primes. *)
Definition K : list Z :=
  map (fun p => wrap32 (cube_root 40 0 (p * 2 ^ 96))) (first_primes 64).

(** The initial state: the same of the square roots of the first 8. *)
Definition H0 : list Z :=
  map (fun p => wrap32 (Z.sqrt (p * 2 ^ 64))) (first_primes 8).

(** Big-endian value of a run of bytes, and the bytes of a value. *)
Definition be_bytes (bs : list Z) : Z :=
  fold_left (fun acc b => acc * 256 + b) bs 0.

Fixpoint to_be (n : nat) (x : Z) : list Z :=
  match n with
  | O => []
  | S n' => Z.land (Z.shiftr x (8 * Z.of_nat n')) 0xff :: to_be n' x
  end.

(** The message followed by 0x80, zeros up to 56 modulo 64, and the bit
    length on eight bytes. *)
Definition pad (msg : list Z) : list Z :=
  let len := length msg in
  let zeros := ((119 - len mod 64) mod 64)%nat in
  msg ++ [0x80] ++ repeat 0 zeros ++ to_be 8 (8 * Z.of_nat len).

Fixpoint chunks (fuel n : nat) (bs : list Z) : list (list Z) :=
  match fuel with
  | O => []
  | S fuel' =>
      match bs with
      | [] => []
      | _ :: _ => take n bs :: chunks fuel' n (drop n bs)
      end
  end.

(** The message schedule: sixteen words of the block, then 48 more. *)
Fixpoint extend (n : nat) (w : list Z) : list Z :=
  match n with
  | O => w
  | S n' =>
      let j := length w in
      let at_ k := nth (j - k) w 0 in
      let s0 := Z.lxor (Z.lxor (rotr (at_ 15%nat) 7) (rotr (at_ 15%nat) 18))
                       (Z.shiftr (at_ 15%nat) 3) in
      let s1 := Z.lxor (Z.lxor (rotr (at_ 2%nat) 17) (rotr (at_ 2%nat) 19))
                       (Z.shiftr (at_ 2%nat) 10) in
      extend n' (w ++ [wrap32 (at_ 16%nat + s0 + at_ 7%nat + s1)])
  end.

Definition round (st : list Z) (kw : Z * Z) : list Z :=
  match st with
  | [a; b; c; d; e; f; g; h] =>
      let S1 := Z.lxor (Z.lxor (rotr e 6) (rotr e 11)) (rotr e 25) in
      let ch := Z.lxor (Z.land e f) (Z.land (Z.lxor e 0xffffffff) g) in
      let t1 := wrap32 (h + S1 + ch + fst kw + snd kw) in
      let S0 := Z.lxor (Z.lxor (rotr a 2) (rotr a 13)) (rotr a 22) in
      let maj := Z.lxor (Z.lxor (Z.land a b) (Z.land a c)) (Z.land b c) in
      let t2 := wrap32 (S0 + maj) in
      [wrap32 (t1 + t2); a; b; c; wrap32 (d + t1); e; f; g]
  | _ => st
  end.

Definition compress (h : list Z) (block : list Z) : list Z :=
  let w := extend 48 (map be_bytes (chunks 16 4 block)) in
  let st := fold_left round (combine K w) h in
  map (fun xy => wrap32 (fst xy + snd xy)) (combine h st).

Definition sha256 (msg : list Z) : list Z :=
  let m := pad msg in
  flat_map (to_be 4) (fold_left compress (chunks (length m) 64 m) H0).

(** UTF-8 of text below 256. *)
Definition utf8 (s : string) : list Z :=
  flat_map (fun c =>
              let n := Z.of_nat (nat_of_ascii c) in
              if n <? 128 then [n]
              else [Z.lor 0xc0 (Z.shiftr n 6); Z.lor 0x80 (Z.land n 0x3f)])
           (list_ascii_of_string s).

Definition BASE91_TABLE : string :=
  "abcdefghijklmnopqrstuvwxyzABCDEFGHIJKLMNOPQRSTUVWXYZ0123456789!#$%&()*+,-./:;<=>?@[]^_`{|}~".

(** The digits of [n] in base 91, most significant first. *)
Fixpoint base91 (fuel : nat) (n : Z) (acc : string) : string :=
  match fuel with
  | O => acc
  | S fuel' =>
      if 0 <? n
      then match String.get (Z.to_nat (n mod 91)) BASE91_TABLE with
           | Some c => base91 fuel' (n / 91) (String c acc)
           | None => acc
           end
      else acc
  end.

Definition guid_for (values : list string) : string :=
  let hash_str := PyStr.join "__" values in
  let hash_int := be_bytes (take 8 (sha256 (utf8 hash_str))) in
  base91 10 hash_int "".

End Genanki.

(** ** Exceptions *)

(** The exceptions the pipeline can raise; the attribute, key or path
    that the message names is kept. *)
Inductive exn :=
  | AssertionError
  | IndexError
  | TypeError
  | KeyError (key : string)
  | AttributeError (attr : string)
  | FileNotFoundError (path : string)
  | SameFileError (path : string).

Inductive result (A : Type) :=
  | OK (a : A)
  | Raise (e : exn).
Arguments OK {A} a.
Arguments Raise {A} e.

#[global] Instance result_ret : MRet result := fun A a => OK a.
#[global] Instance result_bind : MBind result := fun A B k r =>
  match r with
  | OK a => k a
  | Raise e => Raise e
  end.

(** [x[i]], [o.attr] and the like: the value if there is one, the
    exception otherwise. *)
Definition or_raise {A} (e : exn) (x : option A) : result A :=
  match x with
  | Some a => OK a
  | None => Raise e
  end.

(** ** The parsed page *)

(** A BeautifulSoup tree. A [NavigableString] also stands for a plain
    [str] where the program stores one next to page elements; the [class]
    attribute is kept as written and cut into its tokens when matched. *)
#[warnings="-register-all"]
Inductive node :=
  | NavigableString (text : string)
  | Tag (tag_name : string) (tag_attrs : gmap string string) (tag_contents : list node).

Definition contents (n : node) : list node :=
  match n with
  | NavigableString _ => []
  | Tag _ _ cs => cs
  end.

Definition is_tag (n : node) : bool :=
  match n with
  | NavigableString _ => false
  | Tag _ _ _ => true
  end.

(** [x.name == nm]; the name of a string is [None]. *)
Definition named (nm : string) (n : node) : bool :=
  match n with
  | NavigableString _ => false
  | Tag nm' _ _ => String.eqb nm' nm
  end.

(** [class_=c] for a one-token [c]: some token of the attribute is [c]. *)
Definition has_class (c : string) (n : node) : bool :=
  match n with
  | NavigableString _ => false
  | Tag _ attrs _ =>
      match attrs !! "class" with
      | Some v => existsb (String.eqb c) (PyStr.split_ws v)
      | None => false
      end
  end.

(** Everything below a node, in document order. *)
Fixpoint descendants (n : node) : list node :=
  match n with
  | NavigableString _ => []
  | Tag _ _ cs => flat_map (fun c => c :: descendants c) cs
  end.

Definition find_all (nm : string) (n : node) : list node :=
  List.filter (named nm) (descendants n).

(** [tag.find_all()] and [tag()]: every element below. *)
Definition find_all_tags (n : node) : list node :=
  List.filter is_tag (descendants n).

Definition find_all_class (nm c : string) (n : node) : list node :=
  List.filter (fun x => named nm x && has_class c x) (descendants n).

Definition find (nm : string) (n : node) : option node := head (find_all nm n).

Definition find_class (nm c : string) (n : node) : option node :=
  head (find_all_class nm c n).

(** [tag.string]: the text of an only child, looked for downwards. *)
Fixpoint get_string (n : node) : option string :=
  match n with
  | NavigableString s => Some s
  | Tag _ _ [c] => get_string c
  | Tag _ _ _ => None
  end.

(** What [x.split(...)] returns. On a string it is the list of parts.
    An element has no such method: bs4 reads [x.split] as
    [x.find("split")], so the call fails on [None] unless there is a
    child element of that name, which is then called and returns the
    elements below it that carry the argument as name (all of them when
    there is no argument). *)
Inductive split_result :=
  | Parts (l : list string)
  | ResultSet (l : list node).

Definition call_split (sep : option ascii) (x : node) : result split_result :=
  match x with
  | NavigableString s =>
      OK (Parts (match sep with
                 | Some c => PyStr.split c s
                 | None => PyStr.split_ws s
                 end))
  | Tag _ _ _ =>
      match find "split" x with
      | None => Raise TypeError
      | Some t =>
          OK (ResultSet (match sep with
                         | Some c => find_all (String c "") t
                         | None => find_all_tags t
                         end))
      end
  end.

(** [r[i]] on either kind of result. *)
Definition item (r : split_result) (i : nat) : result node :=
  match r with
  | Parts l => or_raise IndexError (NavigableString <$> l !! i)
  | ResultSet l => or_raise IndexError (l !! i)
  end.

(** [" ".join(r[::-1])]: elements are not strings, so only an empty
    result set can be joined. *)
Definition join_reversed (r : split_result) : result string :=
  match r with
  | Parts l => OK (PyStr.join " " (rev l))
  | ResultSet [] => OK ""
  | ResultSet (_ :: _) => Raise TypeError
  end.

(** [l[0::2]]. *)
Fixpoint every_other {A} (l : list A) : list A :=
  match l with
  | [] => []
  | x :: l' =>
      match l' with
      | [] => [x]
      | _ :: l'' => x :: every_other l''
      end
  end.

(** ** Records, files and the deck *)

(** One student record, as [read_roster] leaves it: [photo] is the
    decoded image reference (or the value of a row label that normalises
    to "photo"), [email], [major] and [year] are page nodes taken as they
    are, the other attributes are text. [photo_renamed] is absent until
    [rename_photos] has set it. *)
Record student := Student {
  photo : node;
  advisor : string;
  email : node;
  lname : string;
  fname : string;
  name : string;
  major : node;
  year : node;
  photo_renamed : option string
}.

(** The working directory. [store] holds the regular files, each under
    the identity of the file. [identity] tells which file a path names:
    two paths name the same file exactly when their identities are
    equal, which is what [os.path.samefile] finds out. [creatable st dst]
    is what opening [dst] for writing gives while the files are [st]:
    [None] when a regular file can be created or overwritten there, the
    error otherwise (FileNotFoundError for a folder that is not there).
    The folders stay as they are during a run, which creates none. Left
    out of the model: a file that is there but cannot be read, and a
    path read or written that names a folder ([shutil.copy] writes
    inside a folder given as destination). *)
Record files := Files {
  identity : string -> string;
  creatable : gmap string string -> string -> option exn;
  store : gmap string string
}.

(** [fs !! p]: the content of the file that the path [p] names. *)
#[global] Instance files_lookup : Lookup string string files :=
  fun p fs => store fs !! identity fs p.

(** [<[p := data]> fs]: the file that [p] names holds [data]. *)
#[global] Instance files_insert : Insert string string files :=
  fun p data fs =>
    Files (identity fs) (creatable fs) (<[identity fs p := data]> (store fs)).

(** The attributes of a record while its row is being read. *)
Abbreviation namespace := (gmap string node).

Record Template := { tmpl_name : string; qfmt : string; afmt : string }.

Record Model := {
  model_id : Z;
  model_name : string;
  model_fields : list string;
  templates : list Template;
  sort_field_index : nat
}.

Record MyNote := { model : Model; fields : list string }.

Record Deck := { deck_id : Z; deck_name : node; notes : list MyNote }.

Record Package := { deck : Deck; media_files : list string }.

(** [shutil.copy(src, dst)]: the source must be a path and name a file;
    source and destination must not be the same file, under whatever
    spelling; the destination must be open to writing. The destination
    then holds the source's content, and the source is left in place. *)
Definition copy (src : node) (dst : string) (fs : files) : result files :=
  match src with
  | Tag _ _ _ => Raise TypeError
  | NavigableString p =>
      match fs !! p with
      | None => Raise (FileNotFoundError p)
      | Some data =>
          if String.eqb (identity fs p) (identity fs dst) then Raise (SameFileError p)
          else match creatable fs (store fs) dst with
               | Some e => Raise e
               | None => OK (<[dst := data]> fs)
               end
      end
  end.

(** ** The program *)

Section Roster.

(** Library functions the program calls and that are taken as given:
    [decode] is bs4's markup of an element (its [str] and [repr]),
    [unquote] is [urllib.parse.unquote], [hash] is the interpreter's
    [hash] on text in the running process, and [guid_for] is genanki's
    digest of a list of field values. *)
Variable decode : node -> string.
Variable unquote : string -> string.
Variable hash : string -> Z.
Variable guid_for : list string -> string.

(** [str(x)], also what an f-string prints. *)
Definition py_str (x : node) : string :=
  match x with
  | NavigableString s => s
  | Tag _ _ _ => decode x
  end.

Definition py_repr (x : node) : string :=
  match x with
  | NavigableString s => PyStr.repr s
  | Tag _ _ _ => decode x
  end.

(** [str(l)] for a list of nodes. *)
Definition str_list (l : list node) : string :=
  "[" +:+ PyStr.join ", " (map py_repr l) +:+ "]".

(** [MyNote.guid]. *)
Definition guid (n : MyNote) : result string :=
  f0 ← or_raise IndexError (fields n !! 0%nat);
  f1 ← or_raise IndexError (fields n !! 1%nat);
  OK (guid_for [f0; f1]).

(** *** read_roster *)

(** [soup.title.string.strip()] and the assertion on it. *)
Definition check_title (soup : node) : result unit :=
  t ← or_raise (AttributeError "string") (find "title" soup);
  s ← or_raise (AttributeError "strip") (get_string t);
  if String.eqb (PyStr.strip s) "Instructor Class List" then OK ()
  else Raise AssertionError.

(** The links whose content shows a list address. *)
Definition list_links (soup : node) : list node :=
  List.filter (fun x => PyStr.contains "@lists" (str_list (contents x)))
              (find_all "a" soup).

(** Lines 130-133: the first such link, its first child, the part
    before the at sign. *)
Definition read_course_name (soup : node) : result node :=
  a ← or_raise IndexError (head (list_links soup));
  course_email ← or_raise IndexError (head (contents a));
  parts ← call_split (Some "@"%char) course_email;
  item parts 0.

(** Lines 135-136. *)
Definition class_rows (soup : node) : result (list node) :=
  t ← or_raise (AttributeError "find_all") (find_class "table" "ClassListTable" soup);
  OK (find_all_class "tr" "pdfClassListEntry" t).

(** Lines 149-151: the attribute name made from a label element. When
    the label's first child is an element, [strip] is looked up as a
    child element: the call fails on [None], or on the [lower] of the
    result set it would return. *)
Definition label_of (t : node) : result string :=
  match t with
  | NavigableString _ => Raise (AttributeError "contents")
  | Tag _ _ cs =>
      c ← or_raise IndexError (head cs);
      match c with
      | NavigableString s =>
          OK (PyStr.replace " " "" (PyStr.replace ":" "" (PyStr.lower (PyStr.strip s))))
      | Tag _ _ _ =>
          match find "strip" c with
          | None => Raise TypeError
          | Some _ => Raise (AttributeError "lower")
          end
      end
  end.

(** The loop of lines 147-155, from position [i] on. *)
Fixpoint assign_tags (tags data : list node) (i : nat) (o : namespace) : result namespace :=
  match tags with
  | [] => OK o
  | t :: tags' =>
      key ← label_of t;
      d ← or_raise IndexError (data !! i);
      assign_tags tags' data (S i) (<[key := d]> o)
  end.

(** Lines 139-155: the attributes of a row before normalisation. *)
Definition read_row (r : node) : result namespace :=
  img ← or_raise (AttributeError "attrs") (find "img" r);
  src ← or_raise (KeyError "src")
        (match img with
         | Tag _ attrs _ => attrs !! "src"
         | NavigableString _ => None
         end);
  let o : namespace := {[ "photo" := NavigableString (unquote src) ]} in
  td ← or_raise IndexError (find_all "td" r !! 1%nat);
  let info := List.filter (fun x => negb (named "br" x)) (contents td) in
  let tags := every_other info in
  let data := every_other (tail info) in
  assign_tags tags data 0 o.

Definition getattr (o : namespace) (a : string) : result node :=
  or_raise (AttributeError a) (o !! a).

(** [o.emailaddress.contents[0]]. *)
Definition first_content (x : node) : result node :=
  match x with
  | NavigableString _ => Raise (AttributeError "contents")
  | Tag _ _ cs => or_raise IndexError (head cs)
  end.

(** Lines 156-162, in the order the statements run. A [name] that is an
    element can be indexed twice at best; joining its parts then fails.
    [photo] is always there after [read_row]; it is fetched last, when
    the record is put together. *)
Definition normalize (o : namespace) : result student :=
  a ← getattr o "advisor";
  a_parts ← call_split (Some ","%char) a;
  advisor ← join_reversed a_parts;
  e ← getattr o "emailaddress";
  email ← first_content e;
  n ← getattr o "name";
  n_parts ← call_split (Some ","%char) n;
  match n_parts with
  | ResultSet l =>
      _ ← or_raise IndexError (l !! 0%nat);
      _ ← or_raise IndexError (l !! 1%nat);
      Raise TypeError
  | Parts l =>
      lname ← or_raise IndexError (l !! 0%nat);
      fname ← or_raise IndexError (l !! 1%nat);
      let name := PyStr.join " " (rev l) in
      m ← getattr o "primarymajor";
      m_parts ← call_split None m;
      major ← item m_parts 0;
      year ← getattr o "classification";
      photo ← getattr o "photo";
      OK (Student photo advisor email lname fname name major year None)
  end.

Definition process_row (r : node) : result student :=
  o ← read_row r;
  normalize o.

(** The loop over the rows: the first failing row ends the run. *)
Fixpoint process_rows (rows : list node) : result (list student) :=
  match rows with
  | [] => OK []
  | r :: rows' =>
      o ← process_row r;
      os ← process_rows rows';
      OK (o :: os)
  end.

(** The course name and the roster. *)
Definition read_roster (soup : node) : result (node * list student) :=
  _ ← check_title soup;
  course_name ← read_course_name soup;
  rows ← class_rows soup;
  roster ← process_rows rows;
  OK (course_name, roster).

(** *** rename_photos *)

(** Lines 170-171: the readable file name. *)
Definition new_file_name (r : student) : string :=
  PyStr.replace " " "-"
    ("photo-" +:+ PyStr.lower (lname r) +:+ "-" +:+ PyStr.lower (fname r) +:+ ".jpg").

Definition set_photo_renamed (r : student) (newfnam : string) : student :=
  Student (photo r) (advisor r) (email r) (lname r) (fname r) (name r)
          (major r) (year r) (Some newfnam).

(** One turn of the loop: copy, then record the new name. *)
Definition rename_photo (r : student) (fs : files) : result (student * files) :=
  let oldfnam := photo r in
  let newfnam := new_file_name r in
  fs' ← copy oldfnam newfnam fs;
  OK (set_photo_renamed r newfnam, fs').

Fixpoint rename_photos (roster : list student) (fs : files) : result (list student * files) :=
  match roster with
  | [] => OK ([], fs)
  | r :: roster' =>
      '(r', fs1) ← rename_photo r fs;
      '(rs', fs2) ← rename_photos roster' fs1;
      OK (r' :: rs', fs2)
  end.

(** *** make_flashcards *)

Definition make_model (model_id : Z) : Model :=
  {| model_id := model_id;
     model_name := "My Model";
     model_fields := ["Prompt"; "Photo"; "Answer"];
     templates :=
       [ {| tmpl_name := "Card 1";
            qfmt := "{{Prompt}}<br>{{Photo}}";
            afmt := "{{FrontSide}}<hr id=" +:+ PyStr.dquote +:+ "answer" +:+
                    PyStr.dquote +:+ ">{{Answer}}" |} ];
     sort_field_index := 2 |}.

(** Lines 201-205. *)
Definition answer_text (o : student) : string :=
  (name o +:+ "<br/>" +:+ PyStr.newline) +:+
  (py_str (year o) +:+ " / " +:+ py_str (major o) +:+ "<br>" +:+ PyStr.newline) +:+
  (py_str (email o) +:+ "<br>" +:+ PyStr.newline) +:+
  ("advisor: " +:+ advisor o +:+ "<br>" +:+ PyStr.newline).

Definition prompt_text (course_name : node) : string :=
  py_str course_name +:+ "<br/>".

Definition photo_text (photo_renamed : string) : string :=
  "<img src=" +:+ PyStr.dquote +:+ photo_renamed +:+ PyStr.dquote +:+ ">".

(** Lines 201-211: the note of one record. *)
Definition make_note (m : Model) (course_name : node) (o : student) : result MyNote :=
  let answer := answer_text o in
  let prompt := prompt_text course_name in
  p ← or_raise (AttributeError "photo_renamed") (photo_renamed o);
  OK {| model := m; fields := [prompt; photo_text p; answer] |}.

(** The loop of lines 200-213 over what is left of the roster: each turn
    appends one note to the deck and one name to the media list. *)
Fixpoint add_notes (m : Model) (course_name : node) (roster : list student)
    (notes : list MyNote) (media : list string) : result (list MyNote * list string) :=
  match roster with
  | [] => OK (notes, media)
  | o :: roster' =>
      note ← make_note m course_name o;
      p ← or_raise (AttributeError "photo_renamed") (photo_renamed o);
      add_notes m course_name roster' (notes ++ [note]) (media ++ [p])
  end.

Definition make_flashcards (course_name : node) (roster : list student) : result Package :=
  let model_id := Z.land (hash (py_str course_name)) 0x7fffffff in
  let model := make_model model_id in
  let deck_id := model_id in
  let deck_name := course_name in
  '(notes, media_files) ← add_notes model course_name roster [] [];
  OK {| deck := {| deck_id := deck_id; deck_name := deck_name; notes := notes |};
        media_files := media_files |}.

(** *** main *)

(** The run after the command line has been read and the page parsed:
    the package handed to genanki's writer and the files left behind. *)
Definition main (soup : node) (fs : files) : result (Package * files) :=
  '(course_name, roster) ← read_roster soup;
  '(roster, fs) ← rename_photos roster fs;
  package ← make_flashcards course_name roster;
  OK (package, fs).

End Roster.

(** ** The command line and the page file *)

(** What [parser.parse_args()] returns. Both file options are declared
    with [nargs="?"] and [default=""]: an option that is not given is the
    empty text, an option given without a value is [None], modelled here
    by [None], and an option given with a value is that value. *)
Record Args := {
  input : option string;
  output : option string;
  verbose : bool
}.

(** [x] unless it is [None] or empty ([if not x]), [d] then. *)
Definition or_default (x : option string) (d : string) : string :=
  match x with
  | Some (String c s) => String c s
  | Some "" => d
  | None => d
  end.

(** Lines 107-113 of [Roster.argparse]: the names of the page to read and
    of the archive to write, and the verbosity. *)
Definition argparse (args : Args) : string * string * bool :=
  let ifnam := or_default (input args) "Instructor Class List.html" in
  let ofnam := or_default (output args) "anki.apkg" in
  (ifnam, ofnam, verbose args).

(** Lines 123-125: the page file is opened and read, and its text is
    handed to BeautifulSoup, which builds a tree from any text. File
    contents are text already, so decoding is not modelled. *)
Definition open_page (parse : string -> node) (ifnam : string) (fs : files) : result node :=
  html_content ← or_raise (FileNotFoundError ifnam) (fs !! ifnam);
  OK (parse html_content).

(** [Roster.main] from the command line on. genanki's archive writer is
    not modelled: the result is the package, the name it is to be written
    under, and the directory as the photo copies left it. *)
Definition main_from_args (parse : string -> node) (decode : node -> string)
    (unquote : string -> string) (hash : string -> Z)
    (args : Args) (fs : files) : result (Package * string * files) :=
  let '(ifnam, ofnam, _) := argparse args in
  soup ← open_page parse ifnam fs;
  '(package, fs') ← main decode unquote hash soup fs;
  OK (package, ofnam, fs').

(** Every character of [s] is white space. *)
Fixpoint all_blank (s : string) : bool :=
  match s with
  | "" => true
  | String c s' => PyStr.is_space c && all_blank s'
  end.

(** No character of [s] is white space. *)
Fixpoint no_blank (s : string) : bool :=
  match s with
  | "" => true
  | String c s' => negb (PyStr.is_space c) && no_blank s'
  end.

(** ** Notions used in the statements *)

(** The file name of a photo, put together name by name: "photo-", the
    lowercased last name, a hyphen, the lowercased first name, ".jpg",
    with every space of both names turned into a hyphen, the leading and
    the trailing ones too. *)
Definition hyphenate (s : string) : string := PyStr.replace " " "-" s.

Definition photo_file_name (lastname firstname : string) : string :=
  "photo-" +:+ hyphenate (PyStr.lower lastname) +:+ "-" +:+
  hyphenate (PyStr.lower firstname) +:+ ".jpg".

(** The file name in the words of the specification, where only the
    interior spaces of a name become hyphens: a space is interior when
    the name has another character before it and after it, so the
    spaces a name starts or ends with are left as they are. *)
Fixpoint all_spaces (s : string) : bool :=
  match s with
  | "" => true
  | String c s' => Ascii.eqb c " " && all_spaces s'
  end.

(** From a place after the first character that is no space. *)
Fixpoint hyphenate_inner (s : string) : string :=
  match s with
  | "" => ""
  | String c s' =>
      if Ascii.eqb c " "
      then (if all_spaces s' then s else String "-" (hyphenate_inner s'))
      else String c (hyphenate_inner s')
  end.

Fixpoint hyphenate_interior (s : string) : string :=
  match s with
  | "" => ""
  | String c s' =>
      if Ascii.eqb c " " then String c (hyphenate_interior s')
      else String c (hyphenate_inner s')
  end.

Definition claimed_file_name (lastname firstname : string) : string :=
  "photo-" +:+ hyphenate_interior (PyStr.lower lastname) +:+ "-" +:+
  hyphenate_interior (PyStr.lower firstname) +:+ ".jpg".

(** A name has no space at either end. *)
Fixpoint ends_with_space (s : string) : bool :=
  match s with
  | "" => false
  | String c s' =>
      match s' with
      | "" => Ascii.eqb c " "
      | _ => ends_with_space s'
      end
  end.

Definition trimmed (s : string) : bool :=
  match s with
  | "" => true
  | String c _ => negb (Ascii.eqb c " ") && negb (ends_with_space s)
  end.

(** The lines of a text. *)
Definition lines (text : string) : list string :=
  PyStr.split (ascii_of_nat 10) text.

(** [item] has a line of its own in [text]: some line shows it and shows
    none of the [others]. *)
Definition on_own_line (item : string) (others : list string) (text : string) : bool :=
  existsb (fun l => PyStr.contains item l &&
                    forallb (fun o => negb (PyStr.contains o l)) others)
          (lines text).

(** Some character of [s] is not white space: [s.split()] is not empty. *)
Fixpoint has_nonblank (s : string) : bool :=
  match s with
  | "" => false
  | String c s' => negb (PyStr.is_space c) || has_nonblank s'
  end.

Definition is_text (x : option node) (p : string -> bool) : bool :=
  match x with
  | Some (NavigableString s) => p s
  | _ => false
  end.


(** *** The page as the class-list report lays it out

    The notions of this part describe the page itself; none of them
    calls a function of the program. *)

(** The page carries the expected title, white space around it apart. *)
Definition titled (soup : node) : bool :=
  match find "title" soup with
  | Some t =>
      match get_string t with
      | Some s => String.eqb (PyStr.strip s) "Instructor Class List"
      | None => false
      end
  | None => false
  end.

(** A link shows a list address when its printed content holds the
    marker. *)
Definition shows_list_address (decode : node -> string) (a : node) : bool :=
  PyStr.contains "@lists" (str_list decode (contents a)).

(** The address of the course list: the text that the first link
    showing a list address starts with. *)
Definition list_address (decode : node -> string) (soup : node) : option string :=
  match List.find (shows_list_address decode) (find_all "a" soup) with
  | Some (Tag _ _ (NavigableString addr :: _)) => Some addr
  | _ => None
  end.

(** The rows of the class list: the entries of the class-list table
    (none when the page has no such table). Their number is the N of the
    specification. *)
Definition class_list_entries (soup : node) : list node :=
  match find_class "table" "ClassListTable" soup with
  | Some t => find_all_class "tr" "pdfClassListEntry" t
  | None => []
  end.

(** The image reference of a row: the source of its first image. *)
Definition image_reference (r : node) : option string :=
  match find "img" r with
  | Some (Tag _ attrs _) => attrs !! "src"
  | _ => None
  end.

(** The inline content of the second cell of a row, the line breaks
    left out. *)
Definition cell_items (r : node) : option (list node) :=
  match find_all "td" r with
  | _ :: td :: _ => Some (List.filter (fun x => negb (named "br" x)) (contents td))
  | _ => None
  end.

(** Labels and values alternate: the items taken two by two. A label
    without a value leaves no pairing. *)
Fixpoint pairs_of (items : list node) : option (list (node * node)) :=
  match items with
  | [] => Some []
  | l :: rest =>
      match rest with
      | [] => None
      | v :: rest' =>
          match pairs_of rest' with
          | Some ps => Some ((l, v) :: ps)
          | None => None
          end
      end
  end.

(** The name a label stands for: the text it starts with, trimmed,
    lowercased, colons and spaces removed. *)
Definition label_name (l : node) : option string :=
  match l with
  | Tag _ _ (NavigableString s :: _) =>
      Some (PyStr.replace " " "" (PyStr.replace ":" "" (PyStr.lower (PyStr.strip s))))
  | _ => None
  end.

Fixpoint named_values (ps : list (node * node)) : option (list (string * node)) :=
  match ps with
  | [] => Some []
  | (l, v) :: ps' =>
      match label_name l, named_values ps' with
      | Some k, Some kvs => Some ((k, v) :: kvs)
      | _, _ => None
      end
  end.

(** The named values of a row, in the order of the cell. *)
Definition row_fields (r : node) : option (list (string * node)) :=
  match cell_items r with
  | Some items =>
      match pairs_of items with
      | Some ps => named_values ps
      | None => None
      end
  | None => None
  end.

(** The value given under a name; the last one when the name comes more
    than once. *)
Fixpoint field (k : string) (kvs : list (string * node)) : option node :=
  match kvs with
  | [] => None
  | (k', v) :: rest =>
      match field k rest with
      | Some w => Some w
      | None => if String.eqb k' k then Some v else None
      end
  end.

(** A row in the fixed layout: an image with a source, and a second cell
    of labels and values that gives a name with a comma, an email
    address element with content, a classification, a primary major
    with a word in it and an advisor, name, major and advisor being
    text. The photo is the image: no label of the cell reads "photo". *)
Definition well_formed_row (r : node) : bool :=
  match image_reference r, row_fields r with
  | Some _, Some kvs =>
      is_text (field "name" kvs) (PyStr.has_char ",") &&
      match field "emailaddress" kvs with
      | Some (Tag _ _ (_ :: _)) => true
      | _ => false
      end &&
      match field "classification" kvs with
      | Some _ => true
      | None => false
      end &&
      is_text (field "primarymajor" kvs) has_nonblank &&
      is_text (field "advisor" kvs) (fun _ => true) &&
      match field "photo" kvs with
      | Some _ => false
      | None => true
      end
  | _, _ => false
  end.

(** A structurally valid page: the expected title, a link to take the
    course name from (a page with exactly one is the common case), the
    class-list table, and every entry of it in the fixed layout. *)
Definition structurally_valid (decode : node -> string) (soup : node) : bool :=
  titled soup &&
  match list_address decode soup with
  | Some _ => true
  | None => false
  end &&
  match find_class "table" "ClassListTable" soup with
  | Some _ => true
  | None => false
  end &&
  forallb well_formed_row (class_list_entries soup).





(** The label elements of a row, as [read_row] picks them. *)
Definition row_tags (r : node) : list node :=
  match find_all "td" r !! 1%nat with
  | Some td => every_other (List.filter (fun x => negb (named "br" x)) (contents td))
  | None => []
  end.

(** The values of a row, as [read_row] picks them. *)
Definition row_data (r : node) : list node :=
  match find_all "td" r !! 1%nat with
  | Some td => every_other (tail (List.filter (fun x => negb (named "br" x)) (contents td)))
  | None => []
  end.

(** Every photo of the roster is a file of the working directory, is
    not the file that its new name stands for, and the new name can be
    written whatever files are there. *)
Definition photos_ready (fs : files) (roster : list student) : Prop :=
  Forall (fun o => exists p, photo o = NavigableString p /\
                             is_Some (fs !! p) /\
                             identity fs p <> identity fs (new_file_name o) /\
                             forall st, creatable fs st (new_file_name o) = None)
         roster.


(** The note of a record whose photo has been renamed. *)
Definition note_for (decode : node -> string) (m : Model) (course_name : node)
    (o : student) : MyNote :=
  {| model := m;
     fields := [prompt_text decode course_name;
                photo_text (new_file_name o);
                answer_text decode o] |}.

(** The identifier [make_flashcards] gives to the model and the deck. *)
Definition course_id (decode : node -> string) (hash : string -> Z)
    (course_name : node) : Z :=
  Z.land (hash (py_str decode course_name)) 0x7fffffff.

(** [rename_photos] on one record, seen from the record's side. *)
Definition renamed (r : student) : student :=
  set_photo_renamed r (new_file_name r).

(** ** A sample class list *)

Module Sample.

(** Percent-decoding of the escapes below 0x80;
    [urllib.parse.unquote] agrees with it on references whose escapes
    are all of that kind. *)
Definition hex_value (c : ascii) : option nat :=
  let n := nat_of_ascii c in
  if ((48 <=? n) && (n <=? 57))%nat then Some (n - 48)%nat
  else if ((65 <=? n) && (n <=? 70))%nat then Some (n - 55)%nat
  else if ((97 <=? n) && (n <=? 102))%nat then Some (n - 87)%nat
  else None.

Fixpoint unquote (s : string) : string :=
  match s with
  | "" => ""
  | String c s' =>
      match s' with
      | String h (String l rest) =>
          match hex_value h, hex_value l with
          | Some a, Some b =>
              if Ascii.eqb c "%" && (a <? 8)%nat
              then String (ascii_of_nat (16 * a + b)) (unquote rest)
              else String c (unquote s')
          | _, _ => String c (unquote s')
          end
      | _ => String c (unquote s')
      end
  end.

(** A plain rendering of elements. bs4 also writes the attributes and
    escapes the text; the pages below never print an element. *)
Fixpoint decode (n : node) : string :=
  match n with
  | NavigableString s => s
  | Tag nm _ cs =>
      "<" +:+ nm +:+ ">" +:+
      fold_right (fun c acc => decode c +:+ acc) "" cs +:+
      "</" +:+ nm +:+ ">"
  end.

Definition text : string -> node := NavigableString.

Definition elem (nm : string) (attrs : list (string * string)) (cs : list node) : node :=
  Tag nm (list_to_map attrs) cs.

Definition br : node := elem "br" [] [].

Definition label (s : string) : node := elem "b" [] [text s].

Definition mail_link (addr : string) : node :=
  elem "a" [("href", "mailto:" +:+ addr)] [text addr].

Definition photo_cell (src : string) : node :=
  elem "td" [] [elem "img" [("src", src)] []].

Definition entry (src : string) (block : list node) : node :=
  elem "tr" [("class", "pdfClassListEntry")] [photo_cell src; elem "td" [] block].

Definition block (name_ mail class_ major_ : string) : list node :=
  [ label "Name: "; text name_; br;
    label "Email Address: "; mail_link mail; br;
    label "Classification: "; text class_; br;
    label "Primary Major: "; text major_; br ].

Definition with_advisor (advisor_ : string) : list node :=
  [ label "Advisor: "; text advisor_; br ].

Definition page (links rows : list node) : node :=
  elem "[document]" []
    [ elem "html" []
        [ elem "head" [] [elem "title" [] [text "Instructor Class List"]];
          elem "body" []
            (links ++ [elem "table" [("class", "ClassListTable")] rows]) ] ].

Definition alice : node :=
  entry "Instructor%20Class%20List_files/p1.jpg"
        (block "Smith, Alice" "asmith@upenn.edu" "Junior" "Physics BA/MA"
         ++ with_advisor "Jones, Bob").

Definition maria : node :=
  entry "Instructor%20Class%20List_files/p2.jpg"
        (block "Dela Cruz,Maria" "mdc@upenn.edu" "Senior" "MATH"
         ++ with_advisor "Jones, Bob, Carol").

(** A second Alice Smith, under another photo. *)
Definition alice2 : node :=
  entry "Instructor%20Class%20List_files/p3.jpg"
        (block "SMITH, ALICE" "asmith2@upenn.edu" "Senior" "CHEM"
         ++ with_advisor "Lee,Ann").

(** A row without the Advisor label. *)
Definition no_advisor : node :=
  entry "Instructor%20Class%20List_files/p4.jpg"
        (block "Doe,Jo" "jdoe@upenn.edu" "Junior" "PHYS").

Definition course_link : node := mail_link "PHYS-0150-401-202610@lists.upenn.edu".
Definition other_link : node := mail_link "MATH-1400-001-202610@lists.upenn.edu".

Definition roster_page : node := page [course_link] [alice; maria].
Definition empty_page : node := page [course_link] [].
Definition two_links_page : node := page [course_link; other_link] [alice].
Definition namesakes_page : node := page [course_link] [alice; maria; alice2].

(** A directory without links: a path names the file that its normal
    form spells ([os.path.normpath]), and only the working directory and
    the folder saved with the page exist, so that a file can be written
    exactly under a relative path that lies in one of the two. *)
Definition normalise (initial : nat) (stack : list string) (comp : string) : list string :=
  if String.eqb comp "" || String.eqb comp "." then stack
  else if negb (String.eqb comp "..") then comp :: stack
  else match stack with
       | [] => if (initial =? 0)%nat then comp :: stack else stack
       | top :: below => if String.eqb top ".." then comp :: stack else below
       end.

Definition normpath (path : string) : string :=
  match path with
  | "" => "."
  | _ =>
      let initial :=
        if PyStr.starts_with "/" path
        then (if PyStr.starts_with "//" path && negb (PyStr.starts_with "///" path)
              then 2 else 1)%nat
        else 0%nat in
      let comps := fold_left (normalise initial) (PyStr.split "/" path) [] in
      let joined := string_of_list_ascii (repeat "/"%char initial) +:+
                    PyStr.join "/" (rev comps) in
      match joined with
      | "" => "."
      | _ => joined
      end
  end.

(** The folder of a normal path: what stands before its last slash. *)
Definition folder_of (path : string) : string :=
  PyStr.join "/" (removelast (PyStr.split "/" (normpath path))).

Definition writable (st : gmap string string) (dst : string) : option exn :=
  if negb (PyStr.starts_with "/" dst) &&
     (String.eqb (folder_of dst) "" ||
      String.eqb (folder_of dst) "Instructor Class List_files")
  then None
  else Some (FileNotFoundError dst).

Definition directory (content : list (string * string)) : files :=
  Files normpath writable (list_to_map content).

Definition downloads : files :=
  directory
    [ ("Instructor Class List_files/p1.jpg", "jpeg-1");
      ("Instructor Class List_files/p2.jpg", "jpeg-2");
      ("Instructor Class List_files/p3.jpg", "jpeg-3") ].

(** The records of Alice and Maria after [read_roster]. *)
Definition alice_record : student :=
  {| photo := text "Instructor Class List_files/p1.jpg";
     advisor := " Bob Jones";
     email := text "asmith@upenn.edu";
     lname := "Smith";
     fname := " Alice";
     name := " Alice Smith";
     major := text "Physics";
     year := text "Junior";
     photo_renamed := None |}.

Definition maria_record : student :=
  {| photo := text "Instructor Class List_files/p2.jpg";
     advisor := " Carol  Bob Jones";
     email := text "mdc@upenn.edu";
     lname := "Dela Cruz";
     fname := "Maria";
     name := "Maria Dela Cruz";
     major := text "MATH";
     year := text "Senior";
     photo_renamed := None |}.

(** The attributes of Alice's and Maria's rows before normalisation. *)
Definition alice_attrs : namespace :=
  {[ "photo" := text "Instructor Class List_files/p1.jpg";
     "name" := text "Smith, Alice";
     "emailaddress" := mail_link "asmith@upenn.edu";
     "classification" := text "Junior";
     "primarymajor" := text "Physics BA/MA";
     "advisor" := text "Jones, Bob" ]}.

Definition maria_attrs : namespace :=
  {[ "photo" := text "Instructor Class List_files/p2.jpg";
     "name" := text "Dela Cruz,Maria";
     "emailaddress" := mail_link "mdc@upenn.edu";
     "classification" := text "Senior";
     "primarymajor" := text "MATH";
     "advisor" := text "Jones, Bob, Carol" ]}.

(** The roster of [roster_page] after [rename_photos], and the
    directory it leaves behind. *)
Definition renamed_roster : list student :=
  [ set_photo_renamed alice_record "photo-smith--alice.jpg";
    set_photo_renamed maria_record "photo-dela-cruz-maria.jpg" ].

Definition downloads_after : files :=
  <[ "photo-dela-cruz-maria.jpg" := "jpeg-2" ]>
    (<[ "photo-smith--alice.jpg" := "jpeg-1" ]> downloads).

(** The interpreter of a run started with PYTHONHASHSEED=seed. *)
Definition hash_in_run (seed : Z) : string -> Z := PyHash.str_hash (PyHash.seeded seed).

(** The attributes read from the row without advisor. *)
Definition no_advisor_attrs : namespace :=
  {[ "photo" := text "Instructor Class List_files/p4.jpg";
     "name" := text "Doe,Jo";
     "emailaddress" := mail_link "jdoe@upenn.edu";
     "classification" := text "Junior";
     "primarymajor" := text "PHYS" ]}.

(** The record of the second Alice Smith. *)
Definition alice2_record : student :=
  {| photo := text "Instructor Class List_files/p3.jpg";
     advisor := "Ann Lee";
     email := text "asmith2@upenn.edu";
     lname := "SMITH";
     fname := " ALICE";
     name := " ALICE SMITH";
     major := text "CHEM";
     year := text "Senior";
     photo_renamed := None |}.

(** The directory after the photos of [namesakes_page] have been
    renamed: the second Alice's photo is what the shared name holds. *)
Definition namesakes_after : files :=
  <[ "photo-smith--alice.jpg" := "jpeg-3" ]> downloads_after.

(** The deck of [namesakes_page] in a run started with PYTHONHASHSEED=0. *)
Definition namesakes_package : Package :=
  let m := make_model 931979425 in
  let c := text "PHYS-0150-401-202610" in
  {| deck := {| deck_id := 931979425;
                deck_name := c;
                notes := [note_for decode m c alice_record;
                          note_for decode m c maria_record;
                          note_for decode m c alice2_record] |};
     media_files := ["photo-smith--alice.jpg"; "photo-dela-cruz-maria.jpg";
                     "photo-smith--alice.jpg"] |}.

(** The deck of [roster_page] in a run started with PYTHONHASHSEED=0. *)
Definition roster_package : Package :=
  let m := make_model 931979425 in
  let c := text "PHYS-0150-401-202610" in
  {| deck := {| deck_id := 931979425;
                deck_name := c;
                notes := [note_for decode m c alice_record;
                          note_for decode m c maria_record] |};
     media_files := ["photo-smith--alice.jpg"; "photo-dela-cruz-maria.jpg"] |}.

End Sample.

(** ** A small page file *)

Module Cases.

(** The text of a class list with one student, written without quotes
    and without blanks between the elements. *)
Definition jo_html : string :=
  "<title>Instructor Class List</title>" +:+
  "<a>PHYS-0150-401-202610@lists.upenn.edu</a>" +:+
  "<table class=ClassListTable><tr class=pdfClassListEntry>" +:+
  "<td><img src=jo.jpg></td>" +:+
  "<td><b>Name:</b>Doe,Jo<br><b>Email Address:</b><a>jdoe@upenn.edu</a><br>" +:+
  "<b>Classification:</b>Junior<br><b>Primary Major:</b>PHYS<br>" +:+
  "<b>Advisor:</b>Lee,Ann<br></td></tr></table>".

(** The tree of that text. *)
Definition jo_row : node :=
  Sample.entry "jo.jpg"
    [ Sample.label "Name:"; Sample.text "Doe,Jo"; Sample.br;
      Sample.label "Email Address:";
      Sample.elem "a" [] [Sample.text "jdoe@upenn.edu"]; Sample.br;
      Sample.label "Classification:"; Sample.text "Junior"; Sample.br;
      Sample.label "Primary Major:"; Sample.text "PHYS"; Sample.br;
      Sample.label "Advisor:"; Sample.text "Lee,Ann"; Sample.br ].

Definition jo_page : node :=
  Sample.elem "[document]" []
    [ Sample.elem "title" [] [Sample.text "Instructor Class List"];
      Sample.elem "a" [] [Sample.text "PHYS-0150-401-202610@lists.upenn.edu"];
      Sample.elem "table" [("class", "ClassListTable")] [jo_row] ].

(** A parser that knows this one text; any other text is kept as a
    single string under the document. *)
Definition parse (html : string) : node :=
  if String.eqb html jo_html then jo_page
  else Sample.elem "[document]" [] [Sample.text html].

(** The directory with the page under its conventional name and Jo's
    photo, and the command line without options. *)
Definition folder : files :=
  Sample.directory
    [ ("Instructor Class List.html", jo_html); ("jo.jpg", "jpeg-jo") ].

Definition no_options : Args :=
  {| input := Some ""; output := Some ""; verbose := false |}.

Definition jo_record : student :=
  {| photo := Sample.text "jo.jpg";
     advisor := "Ann Lee";
     email := Sample.text "jdoe@upenn.edu";
     lname := "Doe";
     fname := "Jo";
     name := "Jo Doe";
     major := Sample.text "PHYS";
     year := Sample.text "Junior";
     photo_renamed := None |}.

Definition jo_package : Package :=
  let c := Sample.text "PHYS-0150-401-202610" in
  {| deck := {| deck_id := 931979425;
                deck_name := c;
                notes := [note_for Sample.decode (make_model 931979425) c jo_record] |};
     media_files := ["photo-doe-jo.jpg"] |}.

Definition folder_after : files := <[ "photo-doe-jo.jpg" := "jpeg-jo" ]> folder.

(** A row that names the student twice and carries a Photo label. *)
Definition named_twice : node :=
  Sample.entry "x.jpg"
    [ Sample.label "Name:"; Sample.text "Doe,Jo"; Sample.br;
      Sample.label "Photo:"; Sample.text "other.jpg"; Sample.br;
      Sample.label "NAME :"; Sample.text "Roe,Al"; Sample.br ].

Definition named_twice_attrs : namespace :=
  {[ "photo" := Sample.text "other.jpg"; "name" := Sample.text "Roe,Al" ]}.

(** A saved page of another kind, with a list link and a table all the
    same. *)
Definition other_page : node :=
  Sample.elem "[document]" []
    [ Sample.elem "title" [] [Sample.text " Course Search "];
      Sample.course_link;
      Sample.elem "table" [("class", "ClassListTable")] [Sample.alice] ].

(** The sample page with a row without advisor between the two others. *)
Definition gap_page : node :=
  Sample.page [Sample.course_link] [Sample.alice; Sample.no_advisor; Sample.maria].




(** Attributes with a one-word name, and with a major of several words
    after some blanks. *)
Definition mononym_attrs : namespace :=
  <[ "name" := Sample.text "Cher" ]> Sample.alice_attrs.

Definition spaced_major_attrs : namespace :=
  <[ "primarymajor" := Sample.text "  Physics BA/MA" ]> Sample.alice_attrs.

End Cases.

(** * Properties *)

#[local] Arguments String.append !_ _ / : simpl nomatch.

(** ** Results *)

Lemma bind_OK {A B} (m : result A) (k : A -> result B) (b : B) :
  (x ← m; k x) = OK b <-> exists a, m = OK a /\ k a = OK b.
Proof.
  destruct m as [a|e]; simpl; split.
  - intros H. exists a. split; [reflexivity | exact H].
  - intros (a' & Ha & Hk). injection Ha as ->. exact Hk.
  - discriminate.
  - intros (a' & Ha & _). discriminate Ha.
Qed.

Lemma or_raise_OK {A} (e : exn) (x : option A) (a : A) :
  or_raise e x = OK a <-> x = Some a.
Proof.
  destruct x; simpl; split; intros H; try discriminate; congruence.
Qed.

(** Takes the first statement off a run that ended well. *)
Ltac step H :=
  let a := fresh "v" in
  let E := fresh "E" in
  apply bind_OK in H; destruct H as (a & E & H).

(** ** Strings *)

Lemma append_assoc (a b c : string) : (a +:+ b) +:+ c = a +:+ (b +:+ c).
Proof. induction a as [|x a IH]; simpl; [reflexivity | now rewrite IH]. Qed.

Lemma append_empty_r (a : string) : a +:+ "" = a.
Proof. induction a as [|x a IH]; simpl; [reflexivity | now rewrite IH]. Qed.

Lemma has_char_app (c : ascii) (a b : string) :
  PyStr.has_char c (a +:+ b) = PyStr.has_char c a || PyStr.has_char c b.
Proof.
  induction a as [|x a IH]; simpl; [reflexivity |].
  rewrite IH. now rewrite orb_assoc.
Qed.

Lemma split_not_nil (sep : ascii) (s : string) : PyStr.split sep s <> [].
Proof.
  destruct s as [|c s]; simpl; [discriminate |].
  destruct (Ascii.eqb c sep); [discriminate |].
  destruct (PyStr.split sep s); discriminate.
Qed.

(** Text without the separator is a single part. *)
Lemma split_none (sep : ascii) (s : string) :
  PyStr.has_char sep s = false -> PyStr.split sep s = [s].
Proof.
  induction s as [|c s IH]; simpl; [reflexivity |].
  intros H. apply orb_false_iff in H as [Hc Hs].
  rewrite Hc, (IH Hs). reflexivity.
Qed.

(** The first separator ends the first part. *)
Lemma split_app (sep : ascii) (a b : string) :
  PyStr.has_char sep a = false ->
  PyStr.split sep (a +:+ String sep b) = a :: PyStr.split sep b.
Proof.
  induction a as [|c a IH]; simpl.
  - intros _. now rewrite Ascii.eqb_refl.
  - intros H. apply orb_false_iff in H as [Hc Ha].
    rewrite Hc, (IH Ha). reflexivity.
Qed.

(** No part holds the separator, and joining the parts with it gives the
    text back: the parts are exactly the separated tokens. *)
Lemma split_parts (sep : ascii) (s : string) :
  Forall (fun w => PyStr.has_char sep w = false) (PyStr.split sep s).
Proof.
  induction s as [|c s IH]; simpl.
  - repeat constructor.
  - destruct (Ascii.eqb c sep) eqn:Hc.
    + constructor; [reflexivity | exact IH].
    + destruct (PyStr.split sep s) as [|w ws]; [repeat constructor; simpl; now rewrite Hc |].
      inversion IH as [|? ? Hw Hws]; subst.
      constructor; [simpl; now rewrite Hc, Hw | exact Hws].
Qed.

Lemma join_split (sep : ascii) (s : string) :
  PyStr.join (String sep "") (PyStr.split sep s) = s.
Proof.
  induction s as [|c s IH]; simpl; [reflexivity |].
  destruct (Ascii.eqb c sep) eqn:Hc.
  - apply Ascii.eqb_eq in Hc as ->.
    pose proof (split_not_nil sep s) as Hne.
    destruct (PyStr.split sep s) as [|w ws] eqn:Hs; [contradiction |].
    simpl. now rewrite <- IH.
  - pose proof (split_not_nil sep s) as Hne.
    destruct (PyStr.split sep s) as [|w ws] eqn:Hs; [contradiction |].
    rewrite <- IH. destruct ws; reflexivity.
Qed.



Lemma replace_app (c : ascii) (t a b : string) :
  PyStr.replace c t (a +:+ b) = PyStr.replace c t a +:+ PyStr.replace c t b.
Proof.
  induction a as [|x a IH]; simpl; [reflexivity |].
  rewrite IH. symmetry. apply append_assoc.
Qed.


(** ** Normalisation of a record *)

Lemma getattr_OK (o : namespace) (a : string) (v : node) :
  getattr o a = OK v <-> o !! a = Some v.
Proof. unfold getattr. apply or_raise_OK. Qed.

(** What [normalize] computes, statement by statement, when it ends well
    on text-valued name and advisor. *)
Lemma normalize_text_name (o : namespace) (s : student) (raw : string) :
  normalize o = OK s ->
  o !! "name" = Some (NavigableString raw) ->
  PyStr.split "," raw !! 0%nat = Some (lname s) /\
  PyStr.split "," raw !! 1%nat = Some (fname s) /\
  name s = PyStr.join " " (rev (PyStr.split "," raw)).
Proof.
  intros H Hname. unfold normalize in H.
  do 6 step H. step H.
  apply getattr_OK in E4. rewrite Hname in E4. injection E4 as <-.
  simpl in E5. injection E5 as <-.
  do 7 step H. injection H as <-. simpl.
  apply or_raise_OK in E4, E5. auto.
Qed.

(** C3 (amended): for a raw name "Last,First" with a single comma,
    normalisation sets lname to the part before the comma, fname to the
    part after it as it stands, and name to fname, a space, lname. For
    "Smith, Alice" the part after the comma starts with a blank, which is
    kept: fname is " Alice" and name is " Alice Smith". *)
Theorem normalize_name_split (o : namespace) (s : student) (last first : string) :
  normalize o = OK s ->
  o !! "name" = Some (NavigableString (last +:+ "," +:+ first)) ->
  PyStr.has_char "," last = false ->
  PyStr.has_char "," first = false ->
  lname s = last /\ fname s = first /\ name s = first +:+ " " +:+ last.
Proof.
  intros H Hname Hl Hf.
  destruct (normalize_text_name _ _ _ H Hname) as (H0 & H1 & Hn).
  change (last +:+ "," +:+ first) with (last +:+ String "," first) in *.
  rewrite (split_app _ _ _ Hl), (split_none _ _ Hf) in H0, H1, Hn.
  simpl in H0, H1, Hn.
  injection H0 as <-. injection H1 as <-. auto.
Qed.

Lemma normalize_name_split_witness :
  normalize Sample.alice_attrs = OK Sample.alice_record /\
  lname Sample.alice_record = "Smith" /\
  fname Sample.alice_record = " Alice" /\
  name Sample.alice_record = " Alice Smith".
Proof.
  split; [vm_compute; reflexivity |].
  apply (normalize_name_split Sample.alice_attrs Sample.alice_record "Smith" " Alice");
    vm_compute; reflexivity.
Defined.

(** C3 as stated fails on its own example: the row of "Smith, Alice"
    gets fname " Alice" and name " Alice Smith", not "Alice" and
    "Alice Smith". *)
Lemma smith_alice_keeps_blank :
  process_row Sample.unquote Sample.alice = OK Sample.alice_record /\
  lname Sample.alice_record = "Smith" /\
  fname Sample.alice_record <> "Alice" /\
  name Sample.alice_record <> "Alice Smith".
Proof.
  split; [vm_compute; reflexivity |].
  split; [reflexivity |]. split; discriminate.
Qed.

(** C4 (amended): normalisation sets advisor to the comma-separated
    parts of the raw advisor text in reversed order, joined with one
    space; the parts keep their blanks, so "Jones, Bob, Carol" gives
    " Carol  Bob Jones" and "Jones, Bob" gives " Bob Jones". *)
Theorem normalize_advisor_reversed (o : namespace) (s : student) (raw : string) :
  normalize o = OK s ->
  o !! "advisor" = Some (NavigableString raw) ->
  advisor s = PyStr.join " " (rev (PyStr.split "," raw)).
Proof.
  intros H Hadv. unfold normalize in H.
  step H. apply getattr_OK in E. rewrite Hadv in E. injection E as <-.
  step H. simpl in E. injection E as <-.
  step H. simpl in E. injection E as <-.
  do 3 step H.
  apply bind_OK in H as (parts & _ & H).
  destruct parts as [l | l].
  - do 7 step H. injection H as <-. reflexivity.
  - do 2 step H. discriminate H.
Qed.

Lemma normalize_advisor_reversed_witness :
  normalize Sample.maria_attrs = OK Sample.maria_record /\
  Sample.maria_attrs !! "advisor" = Some (NavigableString "Jones, Bob, Carol") /\
  advisor Sample.maria_record = " Carol  Bob Jones".
Proof.
  split; [vm_compute; reflexivity |].
  split; [vm_compute; reflexivity |].
  apply (normalize_advisor_reversed Sample.maria_attrs Sample.maria_record
           "Jones, Bob, Carol"); vm_compute; reflexivity.
Defined.

(** C4 as stated fails on its own example: the advisor "Jones, Bob"
    becomes " Bob Jones", with the blank that followed the comma in
    front, not "Bob Jones". *)
Lemma jones_bob_keeps_blank :
  Sample.alice_attrs !! "advisor" = Some (NavigableString "Jones, Bob") /\
  normalize Sample.alice_attrs = OK Sample.alice_record /\
  advisor Sample.alice_record = " Bob Jones" /\
  advisor Sample.alice_record <> "Bob Jones".
Proof.
  split; [vm_compute; reflexivity |].
  split; [vm_compute; reflexivity |].
  split; [reflexivity | discriminate].
Qed.

(** ** Renaming the photos *)

(** The name built by [rename_photos] is the one the specification
    describes. *)
Lemma new_file_name_spec (r : student) :
  new_file_name r = photo_file_name (lname r) (fname r).
Proof.
  unfold new_file_name, photo_file_name, hyphenate.
  rewrite !replace_app. reflexivity.
Qed.

(** The files after a write: the file that the path names holds the
    new content, under any spelling of the path; every other file is as
    before, and paths name the files they named. *)
Lemma files_lookup_insert_eq (fs : files) (p q data : string) :
  identity fs p = identity fs q -> <[p := data]> fs !! q = Some data.
Proof.
  intros H. unfold lookup, files_lookup, insert, files_insert. simpl.
  rewrite H. apply lookup_insert_eq.
Qed.

Lemma files_lookup_insert_ne (fs : files) (p q data : string) :
  identity fs p <> identity fs q -> <[p := data]> fs !! q = fs !! q.
Proof.
  intros H. unfold lookup, files_lookup, insert, files_insert. simpl.
  now apply lookup_insert_ne.
Qed.

Lemma files_lookup_insert_Some (fs : files) (p q data : string) :
  is_Some (fs !! q) -> is_Some (<[p := data]> fs !! q).
Proof.
  intros Hq. destruct (decide (identity fs p = identity fs q)) as [E | N].
  - rewrite files_lookup_insert_eq; eauto.
  - now rewrite files_lookup_insert_ne.
Qed.

Lemma copy_OK (src : node) (dst : string) (fs fs' : files) :
  copy src dst fs = OK fs' ->
  exists p data, src = NavigableString p /\ fs !! p = Some data /\
                 identity fs p <> identity fs dst /\
                 creatable fs (store fs) dst = None /\
                 fs' = <[dst := data]> fs.
Proof.
  intros H. destruct src as [p | ? ? ?]; simpl in H; [| discriminate H].
  destruct (fs !! p) as [data |] eqn:Hp; [| discriminate H].
  destruct (String.eqb (identity fs p) (identity fs dst)) eqn:Hne; [discriminate H |].
  destruct (creatable fs (store fs) dst) as [e |] eqn:Hw; [discriminate H |].
  injection H as <-. apply String.eqb_neq in Hne.
  exists p, data. auto.
Qed.

Lemma copy_ready (p dst data : string) (fs : files) :
  fs !! p = Some data -> identity fs p <> identity fs dst ->
  creatable fs (store fs) dst = None ->
  copy (NavigableString p) dst fs = OK (<[dst := data]> fs).
Proof.
  intros Hp Hne Hw. simpl. rewrite Hp.
  apply String.eqb_neq in Hne. now rewrite Hne, Hw.
Qed.

(** One turn of the loop. *)
Lemma rename_photo_OK (r r' : student) (fs fs' : files) :
  rename_photo r fs = OK (r', fs') ->
  exists p data,
    photo r = NavigableString p /\ fs !! p = Some data /\
    identity fs p <> identity fs (new_file_name r) /\
    fs' = <[new_file_name r := data]> fs /\
    r' = set_photo_renamed r (new_file_name r).
Proof.
  unfold rename_photo. intros H. step H. injection H as <- <-.
  apply copy_OK in E as (p & data & Hp & Hd & Hne & _ & ->).
  exists p, data. auto.
Qed.

(** A copy never removes a file. *)
Lemma rename_photo_keeps (r r' : student) (fs fs' : files) (q : string) :
  rename_photo r fs = OK (r', fs') -> is_Some (fs !! q) -> is_Some (fs' !! q).
Proof.
  intros H Hq. apply rename_photo_OK in H as (p & data & _ & _ & _ & -> & _).
  now apply files_lookup_insert_Some.
Qed.

Lemma rename_photos_cons (r : student) (roster : list student) (fs : files)
    (out : list student) (fs' : files) :
  rename_photos (r :: roster) fs = OK (out, fs') <->
  exists r' fs1 rs',
    rename_photo r fs = OK (r', fs1) /\
    rename_photos roster fs1 = OK (rs', fs') /\ out = r' :: rs'.
Proof.
  simpl. split.
  - intros H. step H. destruct v as [r' fs1]. step H. destruct v as [rs' fs2].
    injection H as <- <-. eauto 10.
  - intros (r' & fs1 & rs' & -> & H2 & ->). simpl. rewrite H2. reflexivity.
Qed.

Lemma rename_photos_keeps (roster roster' : list student) (fs fs' : files) (q : string) :
  rename_photos roster fs = OK (roster', fs') -> is_Some (fs !! q) -> is_Some (fs' !! q).
Proof.
  revert fs roster'. induction roster as [|r roster IH]; intros fs roster' H Hq.
  - simpl in H. injection H as <- <-. exact Hq.
  - apply rename_photos_cons in H as (r' & fs1 & rs' & H1 & H2 & ->).
    eapply IH; [exact H2 |]. eapply rename_photo_keeps; eauto.
Qed.

(** The loop splits at any record. *)
Lemma rename_photos_app (pre post : list student) (fs : files)
    (out : list student) (fs' : files) :
  rename_photos (pre ++ post) fs = OK (out, fs') <->
  exists pre' fs1 post',
    rename_photos pre fs = OK (pre', fs1) /\
    rename_photos post fs1 = OK (post', fs') /\ out = pre' ++ post'.
Proof.
  revert fs out. induction pre as [|r pre IH]; intros fs out.
  - simpl. split.
    + intros H. exists [], fs, out. auto.
    + intros (pre' & fs1 & post' & [= <- <-] & H & ->). exact H.
  - rewrite <- app_comm_cons, rename_photos_cons. split.
    + intros (r' & fs1 & rs' & H1 & H2 & ->).
      apply IH in H2 as (pre' & fs2 & post' & Hpre & Hpost & ->).
      exists (r' :: pre'), fs2, post'. split; [| auto].
      apply rename_photos_cons. eauto 10.
    + intros (pre' & fs1 & post' & Hpre & Hpost & ->).
      apply rename_photos_cons in Hpre as (r' & fs0 & rs' & H1 & H2 & ->).
      exists r', fs0, (rs' ++ post'). split; [exact H1 |]. split; [| reflexivity].
      apply IH. eauto 10.
Qed.

(** The records come out in the order they went in, each with its new
    name set and nothing else changed. *)
Lemma rename_photos_records (roster roster' : list student) (fs fs' : files) :
  rename_photos roster fs = OK (roster', fs') ->
  roster' = map renamed roster.
Proof.
  revert fs roster'. induction roster as [|r roster IH]; intros fs roster' H.
  - simpl in H. now injection H as <- <-.
  - apply rename_photos_cons in H as (r' & fs1 & rs' & H1 & H2 & ->).
    apply rename_photo_OK in H1 as (_ & _ & _ & _ & _ & _ & ->).
    simpl. f_equal. eapply IH; eauto.
Qed.


(** Where the two readings of the file name meet: a name without a space
    at either end has interior spaces only. *)
Lemma lower_char_space (c : ascii) :
  Ascii.eqb (PyStr.lower_char c) " " = Ascii.eqb c " ".
Proof. destruct c as [[] [] [] [] [] [] [] []]; vm_compute; reflexivity. Qed.

Lemma lower_ends_with_space (s : string) :
  ends_with_space (PyStr.lower s) = ends_with_space s.
Proof.
  induction s as [|c s IH]; [reflexivity |].
  cbn [PyStr.lower ends_with_space]. rewrite <- IH.
  destruct s; [apply lower_char_space | reflexivity].
Qed.

Lemma lower_trimmed (s : string) : trimmed (PyStr.lower s) = trimmed s.
Proof.
  destruct s as [|c s]; [reflexivity |].
  unfold trimmed. rewrite lower_ends_with_space. cbn [PyStr.lower].
  now rewrite lower_char_space.
Qed.

Lemma all_spaces_ends (s : string) :
  all_spaces s = true -> ends_with_space (String " " s) = true.
Proof.
  induction s as [|c s IH]; [reflexivity |].
  cbn [all_spaces]. intros H. apply andb_true_iff in H as [Hc Hs].
  apply Ascii.eqb_eq in Hc. subst c.
  change (ends_with_space (String " " (String " " s)))
    with (ends_with_space (String " " s)).
  now apply IH.
Qed.

Lemma hyphenate_inner_all (s : string) :
  ends_with_space s = false -> hyphenate_inner s = hyphenate s.
Proof.
  unfold hyphenate. induction s as [|c s IH]; [reflexivity |]. intros H.
  assert (Hs : ends_with_space s = false) by (destruct s; [reflexivity | exact H]).
  cbn [hyphenate_inner PyStr.replace]. rewrite (IH Hs).
  destruct (Ascii.eqb c " ") eqn:Hc; [| reflexivity].
  apply Ascii.eqb_eq in Hc. subst c.
  destruct (all_spaces s) eqn:Hall; [| reflexivity].
  apply all_spaces_ends in Hall. congruence.
Qed.

Lemma hyphenate_interior_trimmed (s : string) :
  trimmed s = true -> hyphenate_interior s = hyphenate s.
Proof.
  destruct s as [|c s]; [reflexivity |].
  unfold trimmed. intros H. apply andb_true_iff in H as [Hc He].
  apply negb_true_iff in Hc, He.
  cbn [hyphenate_interior]. rewrite Hc.
  assert (Hs : ends_with_space s = false) by (destruct s; [reflexivity | exact He]).
  rewrite (hyphenate_inner_all s Hs). unfold hyphenate. cbn [PyStr.replace].
  now rewrite Hc.
Qed.

(** For names without a space at either end the file name is the one
    the specification words. *)
Lemma claimed_name_of_trimmed (r : student) :
  trimmed (lname r) = true -> trimmed (fname r) = true ->
  new_file_name r = claimed_file_name (lname r) (fname r).
Proof.
  intros Hl Hf. rewrite new_file_name_spec. unfold photo_file_name, claimed_file_name.
  rewrite <- lower_trimmed in Hl, Hf.
  now rewrite (hyphenate_interior_trimmed _ Hl), (hyphenate_interior_trimmed _ Hf).
Qed.

(** C5 (amended): when the loop ends well, the record [r] reached after
    [pre] had its photo [p] in the directory at that moment, the copy
    stored the photo's content under "photo-<lastname>-<firstname>.jpg"
    (names lowercased, every space a hyphen, the leading and trailing
    ones included) while [p] kept it, the loop went on from there, the
    record came out with exactly that name as [photo_renamed], and both
    files are still there at the end. *)
Theorem photo_copied_under_new_name
    (pre post : list student) (r : student) (fs fs' : files) (roster' : list student) :
  rename_photos (pre ++ r :: post) fs = OK (roster', fs') ->
  let newfnam := photo_file_name (lname r) (fname r) in
  exists pre' post' fs1 p data,
    rename_photos pre fs = OK (pre', fs1) /\
    photo r = NavigableString p /\
    fs1 !! p = Some data /\
    <[newfnam := data]> fs1 !! newfnam = Some data /\
    <[newfnam := data]> fs1 !! p = Some data /\
    rename_photos post (<[newfnam := data]> fs1) = OK (post', fs') /\
    roster' = pre' ++ set_photo_renamed r newfnam :: post' /\
    photo_renamed (set_photo_renamed r newfnam) = Some newfnam /\
    is_Some (fs' !! p) /\ is_Some (fs' !! newfnam).
Proof.
  intros H newfnam.
  apply rename_photos_app in H as (pre' & fs1 & out & Hpre & Hrest & ->).
  apply rename_photos_cons in Hrest as (r' & fs2 & post' & Hr & Hpost & ->).
  apply rename_photo_OK in Hr as (p & data & Hp & Hd & Hne & -> & ->).
  rewrite new_file_name_spec in *. fold newfnam in Hne, Hpost |- *.
  exists pre', post', fs1, p, data.
  assert (Hnew : <[newfnam := data]> fs1 !! newfnam = Some data)
    by now apply files_lookup_insert_eq.
  assert (Hold : <[newfnam := data]> fs1 !! p = Some data)
    by (rewrite files_lookup_insert_ne; [exact Hd | congruence]).
  repeat split; try assumption; try reflexivity.
  - eapply rename_photos_keeps; [exact Hpost | eauto].
  - eapply rename_photos_keeps; [exact Hpost | eauto].
Qed.

Lemma photo_copied_under_new_name_witness :
  rename_photos ([] ++ Sample.alice_record :: [Sample.maria_record]) Sample.downloads
    = OK (Sample.renamed_roster, Sample.downloads_after) /\
  exists pre' post' fs1 p data,
    rename_photos [] Sample.downloads = OK (pre', fs1) /\
    photo Sample.alice_record = NavigableString p /\
    fs1 !! p = Some data /\
    <["photo-smith--alice.jpg" := data]> fs1 !! "photo-smith--alice.jpg" = Some data /\
    <["photo-smith--alice.jpg" := data]> fs1 !! p = Some data /\
    rename_photos [Sample.maria_record] (<["photo-smith--alice.jpg" := data]> fs1)
      = OK (post', Sample.downloads_after) /\
    Sample.renamed_roster
      = (pre' ++ set_photo_renamed Sample.alice_record "photo-smith--alice.jpg" :: post')%list /\
    photo_renamed (set_photo_renamed Sample.alice_record "photo-smith--alice.jpg")
      = Some "photo-smith--alice.jpg" /\
    is_Some (Sample.downloads_after !! p) /\
    is_Some (Sample.downloads_after !! "photo-smith--alice.jpg").
Proof.
  split; [vm_compute; reflexivity |].
  apply (photo_copied_under_new_name [] [Sample.maria_record] Sample.alice_record
           Sample.downloads Sample.downloads_after Sample.renamed_roster).
  vm_compute; reflexivity.
Defined.

(** C5 as stated fails on the sample row "Smith, Alice". The first name
    of the record is " Alice"; the space it starts with is no interior
    space, so the name in the words of the claim is
    "photo-smith- alice.jpg". The photo is copied to
    "photo-smith--alice.jpg" instead, with a hyphen for that space too,
    and no file of the claimed name is written. *)
Lemma leading_space_becomes_hyphen :
  read_roster Sample.decode Sample.unquote Sample.roster_page
    = OK (NavigableString "PHYS-0150-401-202610",
          [Sample.alice_record; Sample.maria_record]) /\
  lname Sample.alice_record = "Smith" /\ fname Sample.alice_record = " Alice" /\
  claimed_file_name (lname Sample.alice_record) (fname Sample.alice_record)
    = "photo-smith- alice.jpg" /\
  rename_photos [Sample.alice_record] Sample.downloads
    = OK ([set_photo_renamed Sample.alice_record "photo-smith--alice.jpg"],
          <["photo-smith--alice.jpg" := "jpeg-1"]> Sample.downloads) /\
  <["photo-smith--alice.jpg" := "jpeg-1"]> Sample.downloads !! "photo-smith- alice.jpg"
    = None /\
  new_file_name Sample.alice_record
    <> claimed_file_name (lname Sample.alice_record) (fname Sample.alice_record).
Proof.
  split; [vm_compute; reflexivity |].
  split; [reflexivity |]. split; [reflexivity |].
  split; [vm_compute; reflexivity |].
  split; [vm_compute; reflexivity |].
  split; [vm_compute; reflexivity |].
  vm_compute. discriminate.
Qed.

(** On Maria's row, whose names have interior spaces only, the two
    readings give the same file name. *)
Example maria_file_as_claimed :
  new_file_name Sample.maria_record
    = claimed_file_name (lname Sample.maria_record) (fname Sample.maria_record) /\
  new_file_name Sample.maria_record = "photo-dela-cruz-maria.jpg".
Proof.
  split; [apply claimed_name_of_trimmed; reflexivity | vm_compute; reflexivity].
Qed.

(** ** Building the deck *)

Section Deck.

Variable decode : node -> string.
Variable unquote : string -> string.
Variable hash : string -> Z.

Lemma make_note_renamed (m : Model) (c : node) (o : student) :
  make_note decode m c (renamed o) = OK (note_for decode m c o).
Proof. reflexivity. Qed.

(** The loop appends one note and one file name per record, in the
    order of the roster. *)
Lemma add_notes_renamed (m : Model) (c : node) (roster : list student)
    (ns : list MyNote) (ms : list string) :
  add_notes decode m c (map renamed roster) ns ms =
  OK (ns ++ map (note_for decode m c) roster, ms ++ map new_file_name roster).
Proof.
  revert ns ms. induction roster as [|o roster IH]; intros ns ms; simpl.
  - now rewrite !app_nil_r.
  - rewrite IH, <- !app_assoc. reflexivity.
Qed.

Lemma make_flashcards_renamed (c : node) (roster : list student) :
  make_flashcards decode hash c (map renamed roster) =
  OK {| deck := {| deck_id := course_id decode hash c;
                   deck_name := c;
                   notes := map (note_for decode (make_model (course_id decode hash c)) c) roster |};
        media_files := map new_file_name roster |}.
Proof.
  unfold make_flashcards. fold (course_id decode hash c).
  rewrite add_notes_renamed. reflexivity.
Qed.

Lemma process_rows_OK (rows : list node) (roster : list student) :
  process_rows unquote rows = OK roster <->
  Forall2 (fun row o => process_row unquote row = OK o) rows roster.
Proof.
  revert roster. induction rows as [|r rows IH]; intros roster; simpl.
  - split.
    + intros [= <-]. constructor.
    + intros H. inversion H. reflexivity.
  - split.
    + intros H. step H. step H. injection H as <-.
      constructor; [exact E | now apply IH].
    + intros H. inversion H as [|? o ? os Ho Hos]; subst.
      rewrite Ho. simpl. apply IH in Hos. rewrite Hos. reflexivity.
Qed.

Lemma read_roster_OK (soup c : node) (roster : list student) :
  read_roster decode unquote soup = OK (c, roster) <->
  check_title soup = OK () /\
  read_course_name decode soup = OK c /\
  exists rows, class_rows soup = OK rows /\ process_rows unquote rows = OK roster.
Proof.
  unfold read_roster. split.
  - intros H. step H. destruct v. step H. step H. step H.
    injection H as <- <-. eauto 10.
  - intros (H1 & H2 & rows & H3 & H4).
    rewrite H1. simpl. rewrite H2. simpl. rewrite H3. simpl. rewrite H4. reflexivity.
Qed.

(** A run that ends well read a roster, renamed every photo of it and
    made the deck from the renamed records. *)
Lemma main_OK (soup : node) (fs fs' : files) (package : Package) :
  main decode unquote hash soup fs = OK (package, fs') ->
  exists c roster,
    read_roster decode unquote soup = OK (c, roster) /\
    rename_photos roster fs = OK (map renamed roster, fs') /\
    make_flashcards decode hash c (map renamed roster) = OK package.
Proof.
  unfold main. intros H. step H. destruct v as [c roster].
  step H. destruct v as [roster' fs1]. step H. injection H as <- <-.
  pose proof (rename_photos_records _ _ _ _ E0) as ->.
  eauto 10.
Qed.

(** C10: in a run that ends well, the roster pairs up with the
    qualifying rows of the table in their order, record by record, and
    the notes of the deck and the entries of the media list are the
    notes and the file names of those records in the same order: one
    card and one media entry for each row. *)
Theorem cards_and_media_follow_rows
    (soup : node) (fs fs' : files) (package : Package) :
  main decode unquote hash soup fs = OK (package, fs') ->
  exists c rows roster,
    class_rows soup = OK rows /\
    Forall2 (fun row o => process_row unquote row = OK o) rows roster /\
    notes (deck package)
      = map (note_for decode (make_model (course_id decode hash c)) c) roster /\
    media_files package = map new_file_name roster /\
    length (notes (deck package)) = length rows /\
    length (media_files package) = length rows.
Proof.
  intros H. apply main_OK in H as (c & roster & Hread & _ & Hmake).
  apply read_roster_OK in Hread as (_ & _ & rows & Hrows & Hproc).
  apply process_rows_OK in Hproc.
  rewrite make_flashcards_renamed in Hmake. injection Hmake as <-.
  exists c, rows, roster. simpl.
  rewrite !length_map. rewrite (Forall2_length _ _ _ Hproc).
  auto 10.
Qed.

End Deck.

Lemma cards_and_media_follow_rows_witness :
  main Sample.decode Sample.unquote (Sample.hash_in_run 0)
       Sample.roster_page Sample.downloads
    = OK (Sample.roster_package, Sample.downloads_after) /\
  exists c rows roster,
    class_rows Sample.roster_page = OK rows /\
    Forall2 (fun row o => process_row Sample.unquote row = OK o) rows roster /\
    notes (deck Sample.roster_package)
      = map (note_for Sample.decode
               (make_model (course_id Sample.decode (Sample.hash_in_run 0) c)) c) roster /\
    media_files Sample.roster_package = map new_file_name roster /\
    length (notes (deck Sample.roster_package)) = length rows /\
    length (media_files Sample.roster_package) = length rows.
Proof.
  split; [vm_compute; reflexivity |].
  apply (cards_and_media_follow_rows Sample.decode Sample.unquote (Sample.hash_in_run 0)
           Sample.roster_page Sample.downloads Sample.downloads_after).
  vm_compute; reflexivity.
Defined.

(** ** Valid pages *)


(** Reading the labels only adds attributes. *)
Lemma assign_tags_keeps (tags data : list node) (i : nat) (o o' : namespace) (k : string) :
  assign_tags tags data i o = OK o' -> is_Some (o !! k) -> is_Some (o' !! k).
Proof.
  revert i o. induction tags as [|t tags IH]; intros i o H Hk; simpl in H.
  - now injection H as <-.
  - step H. step H. eapply IH; [exact H |].
    destruct (decide (v = k)) as [-> | Hne].
    + rewrite lookup_insert_eq. eauto.
    + now rewrite lookup_insert_ne.
Qed.

(** An attribute that no label names stays absent. *)
Lemma assign_tags_absent (tags data : list node) (i : nat) (o o' : namespace) (k : string) :
  assign_tags tags data i o = OK o' ->
  o !! k = None ->
  (forall t, t ∈ tags -> label_of t <> OK k) ->
  o' !! k = None.
Proof.
  revert i o. induction tags as [|t tags IH]; intros i o H Hk Hlab; simpl in H.
  - now injection H as <-.
  - step H. step H. eapply IH; [exact H | |].
    + rewrite lookup_insert_ne; [exact Hk |].
      intros ->. apply (Hlab t); [left | exact E].
    + intros t' Ht'. apply Hlab. now right.
Qed.

Lemma read_row_OK (unquote : string -> string) (r : node) (o : namespace) :
  read_row unquote r = OK o ->
  exists src data,
    assign_tags (row_tags r) data 0 {[ "photo" := NavigableString (unquote src) ]} = OK o.
Proof.
  unfold read_row, row_tags. intros H. step H. step H. step H.
  apply or_raise_OK in E1. rewrite E1. eauto.
Qed.

Lemma read_row_photo (unquote : string -> string) (r : node) (o : namespace) :
  read_row unquote r = OK o -> is_Some (o !! "photo").
Proof.
  intros H. apply read_row_OK in H as (src & data & H).
  eapply assign_tags_keeps; [exact H |].
  rewrite lookup_singleton_eq. eauto.
Qed.



(** *** From the layout of the page to the run

    What the page shows, in the notions of the layout, is what the
    program reads. *)

Lemma find_head_filter {A} (p : A -> bool) (l : list A) :
  head (List.filter p l) = List.find p l.
Proof.
  induction l as [|x l IH]; simpl; [reflexivity |].
  destruct (p x); [reflexivity | exact IH].
Qed.













(** The page without students is valid too, and gives an empty deck on
    an empty directory. *)
Example empty_page_empty_deck :
  structurally_valid Sample.decode Sample.empty_page = true /\
  class_list_entries Sample.empty_page = [] /\
  exists package,
    main Sample.decode Sample.unquote (Sample.hash_in_run 0) Sample.empty_page
         (Sample.directory [])
      = OK (package, Sample.directory []) /\
    notes (deck package) = [] /\ media_files package = [].
Proof.
  split; [vm_compute; reflexivity |]. split; [vm_compute; reflexivity |].
  eexists. split; [vm_compute; reflexivity |]. split; reflexivity.
Qed.

(** What the layout refuses: a page without a list link and without
    entries, a row without advisor, and a page holding such a row. *)
Example layout_refuses :
  structurally_valid Sample.decode (Sample.page [] []) = false /\
  well_formed_row Sample.no_advisor = false /\
  structurally_valid Sample.decode
    (Sample.page [Sample.course_link] [Sample.no_advisor]) = false.
Proof. repeat split; vm_compute; reflexivity. Qed.

(** The sample roster has its photos at hand in the sample directory. *)
Example sample_photos_ready :
  photos_ready Sample.downloads [Sample.alice_record; Sample.maria_record].
Proof.
  repeat constructor.
  - eexists. split; [reflexivity |]. split; [vm_compute; eauto |].
    split; [vm_compute; discriminate |]. intros st. vm_compute. reflexivity.
  - eexists. split; [reflexivity |]. split; [vm_compute; eauto |].
    split; [vm_compute; discriminate |]. intros st. vm_compute. reflexivity.
Qed.

(** ** A row without advisor *)

Lemma process_rows_stops (unquote : string -> string) (pre post : list node)
    (r : node) (done : list student) (e : exn) :
  process_rows unquote pre = OK done ->
  process_row unquote r = Raise e ->
  process_rows unquote (pre ++ r :: post) = Raise e.
Proof.
  revert done. induction pre as [|x pre IH]; intros done Hpre Hr; simpl.
  - rewrite Hr. reflexivity.
  - simpl in Hpre. step Hpre. step Hpre. rewrite E. simpl.
    rewrite (IH _ E0 Hr). reflexivity.
Qed.

(** C8: a row that can be read but none of whose labels normalises to
    "advisor" makes normalisation raise the attribute error that names
    advisor, at its first statement; no record is produced, the loop
    over the rows stops there and so does [read_roster]. *)
Theorem missing_advisor_raises
    (decode : node -> string) (unquote : string -> string) (r : node) (o : namespace) :
  read_row unquote r = OK o ->
  Forall (fun t => label_of t <> OK "advisor") (row_tags r) ->
  normalize o = Raise (AttributeError "advisor") /\
  process_row unquote r = Raise (AttributeError "advisor") /\
  forall soup c pre post done,
    check_title soup = OK () ->
    read_course_name decode soup = OK c ->
    class_rows soup = OK (pre ++ r :: post) ->
    process_rows unquote pre = OK done ->
    read_roster decode unquote soup = Raise (AttributeError "advisor").
Proof.
  intros Hread Hlabels.
  assert (Hnone : o !! "advisor" = None).
  { destruct (read_row_OK _ _ _ Hread) as (src & data & Hassign).
    eapply assign_tags_absent; [exact Hassign | reflexivity |].
    apply Forall_forall. exact Hlabels. }
  assert (Hnorm : normalize o = Raise (AttributeError "advisor")).
  { unfold normalize, getattr. rewrite Hnone. reflexivity. }
  assert (Hrow : process_row unquote r = Raise (AttributeError "advisor")).
  { unfold process_row. rewrite Hread. exact Hnorm. }
  split; [exact Hnorm |]. split; [exact Hrow |].
  intros soup c pre post done Htitle Hcourse Hrows Hpre.
  unfold read_roster. rewrite Htitle. simpl. rewrite Hcourse. simpl.
  rewrite Hrows. simpl. rewrite (process_rows_stops _ _ _ _ _ _ Hpre Hrow).
  reflexivity.
Qed.

Lemma missing_advisor_raises_witness :
  read_row Sample.unquote Sample.no_advisor = OK Sample.no_advisor_attrs /\
  Forall (fun t => label_of t <> OK "advisor") (row_tags Sample.no_advisor) /\
  normalize Sample.no_advisor_attrs = Raise (AttributeError "advisor") /\
  process_row Sample.unquote Sample.no_advisor = Raise (AttributeError "advisor") /\
  forall soup c pre post done,
    check_title soup = OK () ->
    read_course_name Sample.decode soup = OK c ->
    class_rows soup = OK (pre ++ Sample.no_advisor :: post) ->
    process_rows Sample.unquote pre = OK done ->
    read_roster Sample.decode Sample.unquote soup = Raise (AttributeError "advisor").
Proof.
  assert (Hread : read_row Sample.unquote Sample.no_advisor = OK Sample.no_advisor_attrs)
    by (vm_compute; reflexivity).
  assert (Hlabels : Forall (fun t => label_of t <> OK "advisor") (row_tags Sample.no_advisor))
    by (vm_compute; repeat constructor; discriminate).
  split; [exact Hread |]. split; [exact Hlabels |].
  exact (missing_advisor_raises Sample.decode Sample.unquote Sample.no_advisor
           Sample.no_advisor_attrs Hread Hlabels).
Defined.

(** A page whose second row has no advisor: the run stops with the
    error on advisor. *)
Example page_without_advisor :
  main Sample.decode Sample.unquote (Sample.hash_in_run 0)
       (Sample.page [Sample.course_link] [Sample.alice; Sample.no_advisor; Sample.maria])
       Sample.downloads
  = Raise (AttributeError "advisor").
Proof. vm_compute. reflexivity. Qed.

(** ** Two records with the same names *)

Lemma same_names_same_file (r1 r2 : student) :
  PyStr.lower (lname r1) = PyStr.lower (lname r2) ->
  PyStr.lower (fname r1) = PyStr.lower (fname r2) ->
  new_file_name r1 = new_file_name r2.
Proof. unfold new_file_name. now intros -> ->. Qed.

(** The identifier of a note comes from its prompt and photo embed. *)
Lemma guid_note_for (decode : node -> string) (guid_for : list string -> string)
    (m : Model) (c : node) (o : student) :
  guid guid_for (note_for decode m c o)
  = OK (guid_for [prompt_text decode c; photo_text (new_file_name o)]).
Proof. reflexivity. Qed.

(** C9: let two records of one roster have equal last names and equal
    first names once lowercased. Then both get the same new file name,
    which is the media entry of both; their notes have the same guid;
    and when the second record's turn comes the file of that name,
    written for the first, is there and is overwritten with the second
    record's photo. *)
Theorem namesakes_share_file_and_guid
    (decode : node -> string) (hash : string -> Z) (guid_for : list string -> string)
    (c : node) (pre mid post : list student) (r1 r2 : student)
    (fs fs' : files) (roster' : list student) (package : Package) :
  PyStr.lower (lname r1) = PyStr.lower (lname r2) ->
  PyStr.lower (fname r1) = PyStr.lower (fname r2) ->
  rename_photos (pre ++ r1 :: mid ++ r2 :: post) fs = OK (roster', fs') ->
  make_flashcards decode hash c roster' = OK package ->
  let i := length pre in
  let j := (length pre + S (length mid))%nat in
  exists f n1 n2 g,
    new_file_name r1 = f /\ new_file_name r2 = f /\
    media_files package !! i = Some f /\ media_files package !! j = Some f /\
    notes (deck package) !! i = Some n1 /\ notes (deck package) !! j = Some n2 /\
    guid guid_for n1 = OK g /\ guid guid_for n2 = OK g /\
    exists done fs1 p2 data2 rest,
      rename_photos (pre ++ r1 :: mid) fs = OK (done, fs1) /\
      is_Some (fs1 !! f) /\
      photo r2 = NavigableString p2 /\ fs1 !! p2 = Some data2 /\
      <[f := data2]> fs1 !! f = Some data2 /\
      rename_photos post (<[f := data2]> fs1) = OK (rest, fs').
Proof.
  intros Hl Hf Hren Hmake i j.
  pose proof (same_names_same_file _ _ Hl Hf) as Hsame.
  pose proof (rename_photos_records _ _ _ _ Hren) as ->.
  rewrite make_flashcards_renamed in Hmake. injection Hmake as <-. simpl.
  set (m := make_model (course_id decode hash c)).
  assert (Hi : (pre ++ r1 :: mid ++ r2 :: post) !! i = Some r1)
    by apply list_lookup_middle, eq_refl.
  assert (Hj : (pre ++ r1 :: mid ++ r2 :: post) !! j = Some r2).
  { replace (pre ++ r1 :: mid ++ r2 :: post) with ((pre ++ r1 :: mid) ++ r2 :: post)
      by (now rewrite <- app_assoc).
    apply list_lookup_middle. unfold j. rewrite length_app. reflexivity. }
  exists (new_file_name r1), (note_for decode m c r1), (note_for decode m c r2),
         (guid_for [prompt_text decode c; photo_text (new_file_name r1)]).
  rewrite !list_lookup_fmap, Hi, Hj. simpl.
  rewrite !guid_note_for, <- Hsame.
  do 8 (split; [reflexivity |]).
  replace (pre ++ r1 :: mid ++ r2 :: post) with ((pre ++ r1 :: mid) ++ r2 :: post) in Hren
    by (now rewrite <- app_assoc).
  apply rename_photos_app in Hren as (done & fs1 & out & Hdone & Hrest & _).
  apply rename_photos_cons in Hrest as (r2' & fs2 & rest & Hr2 & Hpost & _).
  apply rename_photo_OK in Hr2 as (p2 & data2 & Hp2 & Hd2 & _ & -> & _).
  rewrite <- Hsame in Hpost.
  exists done, fs1, p2, data2, rest.
  split; [exact Hdone |]. split.
  - apply rename_photos_app in Hdone as (pre' & fs0 & out' & _ & Hmid & _).
    apply rename_photos_cons in Hmid as (r1' & fs01 & rs' & Hr1 & Hmid & _).
    eapply rename_photos_keeps; [exact Hmid |].
    apply rename_photo_OK in Hr1 as (_ & data1 & _ & _ & _ & -> & _).
    rewrite files_lookup_insert_eq by reflexivity. eauto.
  - split; [exact Hp2 |]. split; [exact Hd2 |].
    split; [now apply files_lookup_insert_eq | exact Hpost].
Qed.

Lemma namesakes_share_file_and_guid_witness :
  PyStr.lower (lname Sample.alice_record) = PyStr.lower (lname Sample.alice2_record) /\
  PyStr.lower (fname Sample.alice_record) = PyStr.lower (fname Sample.alice2_record) /\
  rename_photos ([] ++ Sample.alice_record :: [Sample.maria_record]
                    ++ Sample.alice2_record :: []) Sample.downloads
    = OK (map renamed [Sample.alice_record; Sample.maria_record; Sample.alice2_record],
          Sample.namesakes_after) /\
  make_flashcards Sample.decode (Sample.hash_in_run 0) (Sample.text "PHYS-0150-401-202610")
      (map renamed [Sample.alice_record; Sample.maria_record; Sample.alice2_record])
    = OK Sample.namesakes_package /\
  exists f n1 n2 g,
    new_file_name Sample.alice_record = f /\ new_file_name Sample.alice2_record = f /\
    media_files Sample.namesakes_package !! 0%nat = Some f /\
    media_files Sample.namesakes_package !! 2%nat = Some f /\
    notes (deck Sample.namesakes_package) !! 0%nat = Some n1 /\
    notes (deck Sample.namesakes_package) !! 2%nat = Some n2 /\
    guid Genanki.guid_for n1 = OK g /\ guid Genanki.guid_for n2 = OK g /\
    exists done fs1 p2 data2 rest,
      rename_photos ([] ++ Sample.alice_record :: [Sample.maria_record]) Sample.downloads
        = OK (done, fs1) /\
      is_Some (fs1 !! f) /\
      photo Sample.alice2_record = NavigableString p2 /\ fs1 !! p2 = Some data2 /\
      <[f := data2]> fs1 !! f = Some data2 /\
      rename_photos [] (<[f := data2]> fs1) = OK (rest, Sample.namesakes_after).
Proof.
  split; [vm_compute; reflexivity |].
  split; [vm_compute; reflexivity |].
  split; [vm_compute; reflexivity |].
  split; [vm_compute; reflexivity |].
  apply (namesakes_share_file_and_guid Sample.decode (Sample.hash_in_run 0) Genanki.guid_for
           (Sample.text "PHYS-0150-401-202610") [] [Sample.maria_record] []
           Sample.alice_record Sample.alice2_record Sample.downloads Sample.namesakes_after
           (map renamed [Sample.alice_record; Sample.maria_record; Sample.alice2_record])
           Sample.namesakes_package);
    vm_compute; reflexivity.
Defined.

(** The page with the two Alices, run as a whole: one file and one guid
    for both, and the file holds the second photo. *)
Example namesakes_run :
  main Sample.decode Sample.unquote (Sample.hash_in_run 0)
       Sample.namesakes_page Sample.downloads
    = OK (Sample.namesakes_package, Sample.namesakes_after) /\
  Sample.namesakes_after !! "photo-smith--alice.jpg" = Some "jpeg-3" /\
  map (guid Genanki.guid_for) (notes (deck Sample.namesakes_package))
    = [OK "Ax%K.d<dV2"; OK "oPGl3SQJ!j"; OK "Ax%K.d<dV2"].
Proof.
  split; [vm_compute; reflexivity |].
  split; vm_compute; reflexivity.
Qed.

(** ** The answer text *)

(** Text without the separator in front of [s] goes to the first part
    of [s]. *)
Lemma split_prefix (sep : ascii) (a s : string) :
  PyStr.has_char sep a = false ->
  PyStr.split sep (a +:+ s) =
  match PyStr.split sep s with
  | [] => [a]
  | w :: ws => (a +:+ w) :: ws
  end.
Proof.
  induction a as [|c a IH]; simpl.
  - intros _. pose proof (split_not_nil sep s).
    destruct (PyStr.split sep s); [contradiction | reflexivity].
  - intros H. apply orb_false_iff in H as [Hc Ha].
    rewrite Hc, (IH Ha).
    destruct (PyStr.split sep s); reflexivity.
Qed.

(** C6 (amended): when no field holds a line break, the answer text has
    four lines of content, in this order: the full name; the year and
    the major together, separated by " / "; the email address; and
    "advisor: " followed by the advisor name. Each ends with a break
    tag, and an empty line closes the text. *)
Theorem answer_has_four_lines (decode : node -> string) (o : student) :
  PyStr.has_char (ascii_of_nat 10) (name o) = false ->
  PyStr.has_char (ascii_of_nat 10) (py_str decode (year o)) = false ->
  PyStr.has_char (ascii_of_nat 10) (py_str decode (major o)) = false ->
  PyStr.has_char (ascii_of_nat 10) (py_str decode (email o)) = false ->
  PyStr.has_char (ascii_of_nat 10) (advisor o) = false ->
  lines (answer_text decode o) =
  [ name o +:+ "<br/>";
    py_str decode (year o) +:+ " / " +:+ py_str decode (major o) +:+ "<br>";
    py_str decode (email o) +:+ "<br>";
    "advisor: " +:+ advisor o +:+ "<br>";
    "" ].
Proof.
  intros Hn Hy Hm He Ha.
  unfold lines, answer_text, PyStr.newline, PyStr.chr.
  rewrite !append_assoc.
  rewrite (split_prefix _ _ _ Hn). simpl.
  rewrite (split_prefix _ _ _ Hy). simpl.
  rewrite (split_prefix _ _ _ Hm). simpl.
  rewrite (split_prefix _ _ _ He). simpl.
  rewrite (split_prefix _ _ _ Ha). simpl.
  reflexivity.
Qed.

Lemma answer_has_four_lines_witness :
  PyStr.has_char (ascii_of_nat 10) (name Sample.alice_record) = false /\
  PyStr.has_char (ascii_of_nat 10) (py_str Sample.decode (year Sample.alice_record)) = false /\
  PyStr.has_char (ascii_of_nat 10) (py_str Sample.decode (major Sample.alice_record)) = false /\
  PyStr.has_char (ascii_of_nat 10) (py_str Sample.decode (email Sample.alice_record)) = false /\
  PyStr.has_char (ascii_of_nat 10) (advisor Sample.alice_record) = false /\
  lines (answer_text Sample.decode Sample.alice_record) =
  [ " Alice Smith<br/>"; "Junior / Physics<br>"; "asmith@upenn.edu<br>";
    "advisor:  Bob Jones<br>"; "" ].
Proof.
  repeat (split; [vm_compute; reflexivity |]).
  apply (answer_has_four_lines Sample.decode Sample.alice_record); vm_compute; reflexivity.
Defined.

(** C6 as stated fails: in Alice's answer the year and the major stand on
    one line, so neither has a line of its own, while the name, the email
    address and the advisor do. *)
Lemma year_and_major_share_a_line :
  lines (answer_text Sample.decode Sample.alice_record) =
    [ " Alice Smith<br/>"; "Junior / Physics<br>"; "asmith@upenn.edu<br>";
      "advisor:  Bob Jones<br>"; "" ] /\
  on_own_line "Junior"
    [" Alice Smith"; "Physics"; "asmith@upenn.edu"; "advisor:  Bob Jones"]
    (answer_text Sample.decode Sample.alice_record) = false /\
  on_own_line "Physics"
    [" Alice Smith"; "Junior"; "asmith@upenn.edu"; "advisor:  Bob Jones"]
    (answer_text Sample.decode Sample.alice_record) = false /\
  on_own_line " Alice Smith"
    ["Junior"; "Physics"; "asmith@upenn.edu"; "advisor:  Bob Jones"]
    (answer_text Sample.decode Sample.alice_record) = true.
Proof. repeat split; vm_compute; reflexivity. Qed.

(** ** The course name *)

(** The first part of a text ends where the first separator stands. *)
Lemma split_head (sep : ascii) (s : string) :
  exists w ws,
    PyStr.split sep s = w :: ws /\
    PyStr.has_char sep w = false /\
    (s = w \/ exists t, s = w +:+ String sep t).
Proof.
  induction s as [|c s (w & ws & Hs & Hw & Hrest)]; simpl.
  - exists "", []. auto.
  - destruct (Ascii.eqb c sep) eqn:Hc.
    + apply Ascii.eqb_eq in Hc as ->.
      exists "", (PyStr.split sep s). split; [reflexivity |]. split; [reflexivity |].
      right. exists s. reflexivity.
    + rewrite Hs. exists (String c w), ws. split; [reflexivity |].
      split; [simpl; now rewrite Hc, Hw |].
      destruct Hrest as [-> | (t & ->)]; [now left |].
      right. exists t. reflexivity.
Qed.

(** C2 (amended): when no link shows the list-address marker in its
    content, reading the course name raises IndexError and extraction
    fails; when there is at least one, the first of them decides: if its
    first child is the text of an address, the course name is the part
    of that text before its first at sign, whatever links follow. *)
Theorem course_name_from_first_link
    (decode : node -> string) (unquote : string -> string) (soup : node) :
  (list_links decode soup = [] ->
     read_course_name decode soup = Raise IndexError /\
     (check_title soup = OK () ->
        read_roster decode unquote soup = Raise IndexError) /\
     exists e, read_roster decode unquote soup = Raise e) /\
  (forall a rest addr cs,
     list_links decode soup = a :: rest ->
     contents a = NavigableString addr :: cs ->
     exists local,
       read_course_name decode soup = OK (NavigableString local) /\
       PyStr.has_char "@" local = false /\
       (addr = local \/ exists t, addr = local +:+ String "@" t) /\
       forall c roster,
         read_roster decode unquote soup = OK (c, roster) ->
         c = NavigableString local).
Proof.
  split.
  - intros Hnone.
    assert (Hname : read_course_name decode soup = Raise IndexError).
    { unfold read_course_name. rewrite Hnone. reflexivity. }
    split; [exact Hname |]. split.
    + intros Htitle. unfold read_roster. rewrite Htitle. simpl.
      rewrite Hname. reflexivity.
    + unfold read_roster. destruct (check_title soup) as [[] | e]; simpl.
      * rewrite Hname. eauto.
      * eauto.
  - intros a rest addr cs Hlinks Hcontents.
    destruct (split_head "@" addr) as (local & ws & Hsplit & Hlocal & Hshape).
    assert (Hname : read_course_name decode soup = OK (NavigableString local)).
    { unfold read_course_name. rewrite Hlinks. simpl. rewrite Hcontents. simpl.
      rewrite Hsplit. reflexivity. }
    exists local. split; [exact Hname |]. split; [exact Hlocal |].
    split; [exact Hshape |].
    intros c roster Hread. apply read_roster_OK in Hread as (_ & Hc & _).
    congruence.
Qed.

Lemma course_name_from_first_link_witness :
  (read_course_name Sample.decode (Sample.page [] [Sample.alice]) = Raise IndexError /\
   read_roster Sample.decode Sample.unquote (Sample.page [] [Sample.alice])
     = Raise IndexError) /\
  exists local,
    read_course_name Sample.decode Sample.roster_page = OK (NavigableString local) /\
    PyStr.has_char "@" local = false /\
    ("PHYS-0150-401-202610@lists.upenn.edu" = local \/
     exists t, "PHYS-0150-401-202610@lists.upenn.edu" = local +:+ String "@" t).
Proof.
  split.
  - destruct (course_name_from_first_link Sample.decode Sample.unquote
                (Sample.page [] [Sample.alice])) as [Hnone _].
    destruct Hnone as (Hname & Hread & _); [vm_compute; reflexivity |].
    split; [exact Hname |]. apply Hread. vm_compute; reflexivity.
  - destruct (course_name_from_first_link Sample.decode Sample.unquote
                Sample.roster_page) as [_ Hfirst].
    destruct (Hfirst Sample.course_link [] "PHYS-0150-401-202610@lists.upenn.edu" [])
      as (local & Hname & Hlocal & Hshape & _);
      [vm_compute; reflexivity | vm_compute; reflexivity |].
    exists local. auto.
Defined.

(** C2 as stated fails: the page with two list links is read without
    error, and the course name comes from the first of them. *)
Lemma two_links_are_accepted :
  list_links Sample.decode Sample.two_links_page
    = [Sample.course_link; Sample.other_link] /\
  read_roster Sample.decode Sample.unquote Sample.two_links_page
    = OK (NavigableString "PHYS-0150-401-202610", [Sample.alice_record]).
Proof. split; vm_compute; reflexivity. Qed.

(** Without any list link the same page is refused. *)
Example no_link_is_refused :
  list_links Sample.decode (Sample.page [] [Sample.alice]) = [] /\
  read_roster Sample.decode Sample.unquote (Sample.page [] [Sample.alice])
    = Raise IndexError.
Proof. split; vm_compute; reflexivity. Qed.

(** ** Identifiers *)

(** The model and the deck get one identifier, every note carries that
    model, and the identifier is fixed by the course name and by the
    [hash] of the running interpreter. *)
Lemma model_and_deck_share_id
    (decode : node -> string) (hash : string -> Z)
    (c : node) (roster : list student) (package : Package) :
  make_flashcards decode hash c roster = OK package ->
  deck_id (deck package) = course_id decode hash c /\
  Forall (fun n => model_id (model n) = deck_id (deck package)) (notes (deck package)).
Proof.
  unfold make_flashcards. fold (course_id decode hash c).
  set (m := make_model (course_id decode hash c)).
  intros H. step H. destruct v as [ns ms]. injection H as <-. simpl.
  split; [reflexivity |].
  assert (Hgen : forall roster ns0 ms0 ns1 ms1,
             add_notes decode m c roster ns0 ms0 = OK (ns1, ms1) ->
             Forall (fun n => model_id (model n) = course_id decode hash c) ns0 ->
             Forall (fun n => model_id (model n) = course_id decode hash c) ns1).
  { clear. induction roster as [|o roster IH]; intros ns0 ms0 ns1 ms1 H Hns0; simpl in H.
    - now injection H as <- <-.
    - step H. step H. eapply IH; [exact H |].
      apply Forall_app. split; [exact Hns0 |].
      unfold make_note in E. step E. injection E as <-.
      repeat constructor. }
  eapply Hgen; [exact E | constructor].
Qed.


(** C1, on the code: the sample page read in two interpreter processes,
    one started with PYTHONHASHSEED=1 and one with PYTHONHASHSEED=2.
    Both runs end well, leave the same files, give every note the same
    guid, and use one identifier for model and deck; but that identifier
    is 131029740 in the first run and 1613543589 in the second. *)
Theorem deck_id_differs_between_runs :
  exists p1 p2 fs',
    main Sample.decode Sample.unquote (Sample.hash_in_run 1)
         Sample.roster_page Sample.downloads = OK (p1, fs') /\
    main Sample.decode Sample.unquote (Sample.hash_in_run 2)
         Sample.roster_page Sample.downloads = OK (p2, fs') /\
    map (guid Genanki.guid_for) (notes (deck p1))
      = map (guid Genanki.guid_for) (notes (deck p2)) /\
    map fields (notes (deck p1)) = map fields (notes (deck p2)) /\
    Forall (fun n => model_id (model n) = deck_id (deck p1)) (notes (deck p1)) /\
    Forall (fun n => model_id (model n) = deck_id (deck p2)) (notes (deck p2)) /\
    deck_id (deck p1) = 131029740 /\
    deck_id (deck p2) = 1613543589 /\
    deck_id (deck p1) <> deck_id (deck p2).
Proof.
  eexists _, _, _.
  split; [vm_compute; reflexivity |].
  split; [vm_compute; reflexivity |].
  split; [vm_compute; reflexivity |].
  split; [vm_compute; reflexivity |].
  split; [repeat constructor |].
  split; [repeat constructor |].
  split; [reflexivity |]. split; [reflexivity |].
  discriminate.
Qed.

(** * Further properties of the program *)

(** ** The command line *)

(** X1: the names of the page and of the archive are never empty: a name
    given on the command line is used as it is, and when the option is
    absent, given without a value or given empty, the conventional name
    takes its place. *)
Theorem argparse_names_never_empty (args : Args) :
  let ifnam := fst (fst (argparse args)) in
  let ofnam := snd (fst (argparse args)) in
  ifnam <> "" /\ ofnam <> "" /\
  (forall c s, input args = Some (String c s) -> ifnam = String c s) /\
  (forall c s, output args = Some (String c s) -> ofnam = String c s) /\
  (input args = None \/ input args = Some "" -> ifnam = "Instructor Class List.html") /\
  (output args = None \/ output args = Some "" -> ofnam = "anki.apkg") /\
  snd (argparse args) = verbose args.
Proof.
  destruct args as [[[|c s] |] [[|c' s'] |] v]; simpl;
    repeat split; try discriminate; try congruence;
    try (intros [H | H]; (discriminate H || reflexivity)).
Qed.

Lemma or_default_not_empty (x : option string) (d : string) :
  d <> "" -> or_default x d <> "".
Proof. destruct x as [[|c s] |]; simpl; auto; discriminate. Qed.

Lemma argparse_nonempty_aux (args : Args) : snd (fst (argparse args)) <> "".
Proof. simpl. apply or_default_not_empty. discriminate. Qed.

(** Every new file name is in the directory once the loop is through. *)
Lemma rename_photos_new_exist (roster out : list student) (fs fs' : files) :
  rename_photos roster fs = OK (out, fs') ->
  Forall (fun r => is_Some (fs' !! new_file_name r)) roster.
Proof.
  revert fs out. induction roster as [|r roster IH]; intros fs out H.
  - constructor.
  - apply rename_photos_cons in H as (r' & fs1 & rs' & H1 & H2 & ->).
    constructor; [| eapply IH; exact H2].
    eapply rename_photos_keeps; [exact H2 |].
    apply rename_photo_OK in H1 as (_ & data & _ & _ & _ & -> & _).
    rewrite files_lookup_insert_eq by reflexivity. eauto.
Qed.

Lemma main_from_args_OK (parse : string -> node) (decode : node -> string)
    (unquote : string -> string) (hash : string -> Z)
    (args : Args) (fs fs' : files) (package : Package) (ofnam : string) :
  main_from_args parse decode unquote hash args fs = OK (package, ofnam, fs') ->
  exists html,
    fs !! fst (fst (argparse args)) = Some html /\
    ofnam = snd (fst (argparse args)) /\
    main decode unquote hash (parse html) fs = OK (package, fs').
Proof.
  unfold main_from_args, open_page.
  destruct (argparse args) as [[ifnam ofnam'] v]. simpl.
  intros H.
  apply bind_OK in H as (soup & Hopen & H).
  apply bind_OK in H as ([p fs1] & Hmain & H).
  injection H as <- <- <-.
  apply bind_OK in Hopen as (html & Hpage & Hparse).
  apply or_raise_OK in Hpage. injection Hparse as <-.
  eauto.
Qed.

(** X2: a run from the command line that ends well read the page from
    the directory, announces a non-empty archive name, removed no file
    of the directory (the page itself included), and every entry of the
    media list names a file that is then in the directory, one entry for
    each note. *)
Theorem run_keeps_files_and_stores_media
    (parse : string -> node) (decode : node -> string)
    (unquote : string -> string) (hash : string -> Z)
    (args : Args) (fs fs' : files) (package : Package) (ofnam : string) :
  main_from_args parse decode unquote hash args fs = OK (package, ofnam, fs') ->
  ofnam <> "" /\
  is_Some (fs' !! fst (fst (argparse args))) /\
  (forall q, is_Some (fs !! q) -> is_Some (fs' !! q)) /\
  Forall (fun f => is_Some (fs' !! f)) (media_files package) /\
  length (media_files package) = length (notes (deck package)).
Proof.
  intros H. apply main_from_args_OK in H as (html & Hpage & -> & Hmain).
  apply main_OK in Hmain as (c & roster & _ & Hren & Hmake).
  rewrite make_flashcards_renamed in Hmake. injection Hmake as <-.
  split; [apply argparse_nonempty_aux |].
  split; [eapply rename_photos_keeps; [exact Hren | rewrite Hpage; eauto] |].
  split; [intros q; eapply rename_photos_keeps; exact Hren |].
  cbn [media_files deck notes].
  split; [| now rewrite !length_map].
  apply Forall_fmap. apply rename_photos_new_exist in Hren.
  exact Hren.
Qed.

Lemma run_keeps_files_and_stores_media_witness :
  main_from_args Cases.parse Sample.decode Sample.unquote (Sample.hash_in_run 0)
      Cases.no_options Cases.folder
    = OK (Cases.jo_package, "anki.apkg", Cases.folder_after) /\
  "anki.apkg" <> "" /\
  is_Some (Cases.folder_after !! fst (fst (argparse Cases.no_options))) /\
  (forall q, is_Some (Cases.folder !! q) -> is_Some (Cases.folder_after !! q)) /\
  Forall (fun f => is_Some (Cases.folder_after !! f)) (media_files Cases.jo_package) /\
  length (media_files Cases.jo_package) = length (notes (deck Cases.jo_package)).
Proof.
  split; [vm_compute; reflexivity |].
  apply (run_keeps_files_and_stores_media Cases.parse Sample.decode Sample.unquote
           (Sample.hash_in_run 0) Cases.no_options Cases.folder).
  vm_compute; reflexivity.
Defined.

(** ** Labels and attributes *)

Lemma lower_char_idempotent (c : ascii) :
  PyStr.lower_char (PyStr.lower_char c) = PyStr.lower_char c.
Proof.
  destruct c as [[] [] [] [] [] [] [] []]; vm_compute; reflexivity.
Qed.

Lemma lower_idempotent (s : string) : PyStr.lower (PyStr.lower s) = PyStr.lower s.
Proof.
  induction s as [|c s IH]; simpl; [reflexivity |].
  now rewrite lower_char_idempotent, IH.
Qed.

Lemma lower_app (a b : string) :
  PyStr.lower (a +:+ b) = PyStr.lower a +:+ PyStr.lower b.
Proof. induction a as [|c a IH]; simpl; [reflexivity | now rewrite IH]. Qed.

(** Replacing a character by lowercase text keeps lowercase text
    lowercase. *)
Lemma lower_replace (c : ascii) (t s : string) :
  PyStr.lower t = t -> PyStr.lower s = s ->
  PyStr.lower (PyStr.replace c t s) = PyStr.replace c t s.
Proof.
  intros Ht. induction s as [|a s IH]; simpl; [reflexivity |].
  intros H. injection H as Ha Hs.
  rewrite lower_app, (IH Hs).
  destruct (Ascii.eqb a c); [now rewrite Ht |].
  simpl. now rewrite Ha.
Qed.

(** After the replacement the character is gone, unless the new text
    brings it back. *)
Lemma replace_removes (c : ascii) (t s : string) :
  PyStr.has_char c t = false -> PyStr.has_char c (PyStr.replace c t s) = false.
Proof.
  intros Ht. induction s as [|a s IH]; simpl; [reflexivity |].
  rewrite has_char_app, IH, orb_false_r.
  destruct (Ascii.eqb a c) eqn:Ha; [exact Ht |].
  simpl. now rewrite Ha.
Qed.

(** Taking characters out brings no other character in. *)
Lemma delete_keeps_absent (c d : ascii) (s : string) :
  PyStr.has_char c s = false -> PyStr.has_char c (PyStr.replace d "" s) = false.
Proof.
  induction s as [|a s IH]; simpl; [reflexivity |].
  intros H. apply orb_false_iff in H as [Ha Hs].
  rewrite has_char_app, (IH Hs), orb_false_r.
  destruct (Ascii.eqb a d); [reflexivity |].
  simpl. now rewrite Ha.
Qed.

(** X3: the attribute name made from a label holds no colon and no
    space and is in lower case, whatever the label's text. *)
Theorem label_is_normalised (t : node) (key : string) :
  label_of t = OK key ->
  PyStr.has_char ":" key = false /\
  PyStr.has_char " " key = false /\
  PyStr.lower key = key.
Proof.
  destruct t as [s | nm attrs [| [s | nm' attrs' cs'] cs]]; simpl; try discriminate.
  - intros [= <-]. split; [| split].
    + apply delete_keeps_absent, replace_removes. reflexivity.
    + apply replace_removes. reflexivity.
    + apply lower_replace; [reflexivity |].
      apply lower_replace; [reflexivity |]. apply lower_idempotent.
  - destruct (find "strip" (Tag nm' attrs' cs')); discriminate.
Qed.

Lemma label_is_normalised_witness :
  label_of (Sample.label " Email Address: ") = OK "emailaddress" /\
  PyStr.has_char ":" "emailaddress" = false /\
  PyStr.has_char " " "emailaddress" = false /\
  PyStr.lower "emailaddress" = "emailaddress".
Proof.
  split; [vm_compute; reflexivity |].
  apply (label_is_normalised (Sample.label " Email Address: ")).
  vm_compute; reflexivity.
Defined.

(** The loop over the labels, split at one of them. *)
Lemma assign_tags_app (pre post data : list node) (i : nat) (o o' : namespace) :
  assign_tags (pre ++ post) data i o = OK o' <->
  exists o1, assign_tags pre data i o = OK o1 /\
             assign_tags post data (i + length pre) o1 = OK o'.
Proof.
  revert i o. induction pre as [|t pre IH]; intros i o; simpl.
  - rewrite Nat.add_0_r. split.
    + intros H. eauto.
    + intros (o1 & [= <-] & H). exact H.
  - split.
    + intros H. step H. step H. apply IH in H as (o1 & H1 & H2).
      exists o1. rewrite E. simpl. rewrite E0. simpl.
      split; [exact H1 |]. now rewrite <- Nat.add_succ_comm.
    + intros (o1 & H1 & H2). step H1. step H1.
      rewrite E. simpl. rewrite E0. simpl. apply IH.
      exists o1. split; [exact H1 |]. now rewrite Nat.add_succ_comm.
Qed.

(** Labels that give other names leave an attribute as it is. *)
Lemma assign_tags_other (tags data : list node) (i : nat) (o o' : namespace) (k : string) :
  assign_tags tags data i o = OK o' ->
  Forall (fun t => label_of t <> OK k) tags ->
  o' !! k = o !! k.
Proof.
  revert i o. induction tags as [|t tags IH]; intros i o H Hlab; simpl in H.
  - now injection H as <-.
  - inversion Hlab as [|? ? Ht Htags]; subst.
    step H. step H. rewrite (IH _ _ H Htags).
    apply lookup_insert_ne. intros ->. now apply Ht.
Qed.

Lemma read_row_assign (unquote : string -> string) (r : node) (o : namespace) :
  read_row unquote r = OK o ->
  exists src,
    assign_tags (row_tags r) (row_data r) 0
      {[ "photo" := NavigableString (unquote src) ]} = OK o.
Proof.
  unfold read_row, row_tags, row_data. intros H. step H. step H. step H.
  apply or_raise_OK in E1. rewrite E1. eauto.
Qed.

(** X4: when several labels of a row give the same attribute name, the
    last of them decides: the attribute holds the value that stands at
    that label's position. A label that normalises to "photo" replaces
    the image reference in the same way. *)
Theorem last_label_decides
    (unquote : string -> string) (r : node) (o : namespace)
    (pre post : list node) (t : node) (key : string) :
  read_row unquote r = OK o ->
  row_tags r = pre ++ t :: post ->
  label_of t = OK key ->
  Forall (fun t' => label_of t' <> OK key) post ->
  exists d, row_data r !! length pre = Some d /\ o !! key = Some d.
Proof.
  intros Hread Htags Hkey Hpost.
  apply read_row_assign in Hread as (src & H). rewrite Htags in H.
  apply assign_tags_app in H as (o1 & _ & H). simpl in H.
  rewrite Hkey in H. simpl in H. step H.
  apply or_raise_OK in E. exists v. split; [exact E |].
  rewrite (assign_tags_other _ _ _ _ _ _ H Hpost).
  apply lookup_insert_eq.
Qed.

Lemma last_label_decides_witness :
  read_row Sample.unquote Cases.named_twice = OK Cases.named_twice_attrs /\
  row_tags Cases.named_twice
    = ([Sample.label "Name:"; Sample.label "Photo:"] ++ Sample.label "NAME :" :: [])%list /\
  label_of (Sample.label "NAME :") = OK "name" /\
  exists d,
    row_data Cases.named_twice !! length [Sample.label "Name:"; Sample.label "Photo:"]
      = Some d /\
    Cases.named_twice_attrs !! "name" = Some d.
Proof.
  split; [vm_compute; reflexivity |].
  split; [vm_compute; reflexivity |].
  split; [vm_compute; reflexivity |].
  apply (last_label_decides Sample.unquote Cases.named_twice Cases.named_twice_attrs
           [Sample.label "Name:"; Sample.label "Photo:"] [] (Sample.label "NAME :") "name");
    first [vm_compute; reflexivity | constructor].
Defined.

Lemma every_other_length {A} (l : list A) :
  length (every_other l) = Nat.div2 (S (length l)) /\
  forall x, length (every_other (x :: l)) = Nat.div2 (S (S (length l))).
Proof.
  induction l as [|a l [IH1 IH2]].
  - split; [reflexivity | intros x; reflexivity].
  - split; [apply IH2 |].
    intros x. simpl every_other. simpl length. now rewrite IH1.
Qed.

(** Every label met by the loop has a value at its position. *)
Lemma assign_tags_bound (tags data : list node) (i : nat) (o o' : namespace) :
  assign_tags tags data i o = OK o' ->
  tags = [] \/ (i + length tags <= length data)%nat.
Proof.
  revert i o. induction tags as [|t tags IH]; intros i o H; simpl in H.
  - now left.
  - right. step H. step H. apply or_raise_OK in E0. apply lookup_lt_Some in E0.
    apply IH in H as [-> | H]; simpl; lia.
Qed.

(** X5: a row is read only if every label of its second cell has a
    value: the nodes of the cell that are not line breaks come in pairs,
    so a label left without value at the end makes the row fail. *)
Theorem labels_and_values_pair_up
    (unquote : string -> string) (r : node) (o : namespace) :
  read_row unquote r = OK o ->
  length (row_tags r) = length (row_data r) /\
  exists td,
    find_all "td" r !! 1%nat = Some td /\
    Nat.Even (length (List.filter (fun x => negb (named "br" x)) (contents td))).
Proof.
  intros Hread.
  destruct (read_row_assign _ _ _ Hread) as (src & Hassign).
  apply assign_tags_bound in Hassign.
  unfold read_row in Hread. do 3 step Hread. apply or_raise_OK in E1.
  unfold row_tags, row_data in *. rewrite E1 in *.
  set (info := List.filter (fun x => negb (named "br" x)) (contents v1)) in *.
  assert (Htail : length (every_other (tail info)) = Nat.div2 (length info)).
  { destruct info as [|x l]; [reflexivity |]. simpl tail.
    apply (every_other_length l). }
  destruct (every_other_length info) as [Hlen _].
  assert (Hle : (Nat.div2 (S (length info)) <= Nat.div2 (length info))%nat).
  { destruct Hassign as [Hnil | Hle].
    - rewrite <- Hlen, Hnil. apply Nat.le_0_l.
    - rewrite <- Hlen, <- Htail. exact Hle. }
  assert (Heven : Nat.Even (length info)).
  { destruct (Nat.Even_or_Odd (length info)) as [He | [k Hk]]; [exact He |].
    exfalso. rewrite Hk in Hle.
    replace (S (2 * k + 1)) with (2 * (S k))%nat in Hle by lia.
    replace (2 * k + 1)%nat with (S (2 * k)) in Hle by lia.
    rewrite Nat.div2_double, Nat.div2_succ_double in Hle. lia. }
  split.
  - rewrite Hlen, Htail. destruct Heven as [k Hk]. rewrite Hk.
    now rewrite Nat.div2_double, Nat.div2_succ_double.
  - exists v1. auto.
Qed.

Lemma labels_and_values_pair_up_witness :
  read_row Sample.unquote Sample.no_advisor = OK Sample.no_advisor_attrs /\
  length (row_tags Sample.no_advisor) = length (row_data Sample.no_advisor) /\
  exists td,
    find_all "td" Sample.no_advisor !! 1%nat = Some td /\
    Nat.Even (length (List.filter (fun x => negb (named "br" x)) (contents td))).
Proof.
  split; [vm_compute; reflexivity |].
  apply (labels_and_values_pair_up Sample.unquote Sample.no_advisor Sample.no_advisor_attrs).
  vm_compute; reflexivity.
Defined.

(** ** What a record requires *)

Lemma split_second_has_sep (sep : ascii) (s x : string) :
  PyStr.split sep s !! 1%nat = Some x -> PyStr.has_char sep s = true.
Proof.
  intros H. destruct (PyStr.has_char sep s) eqn:Hs; [reflexivity |].
  rewrite (split_none _ _ Hs) in H. discriminate H.
Qed.

(** X6: a record is produced only from attributes that hold an advisor,
    an email address that is an element with a first child, a name that
    is text with a comma, a primary major and a classification; the
    record's email, year and photo are that first child, the
    classification and the photo attribute as they stand. *)
Theorem record_needs_all_attributes (o : namespace) (s : student) :
  normalize o = OK s ->
  is_Some (o !! "advisor") /\
  (exists nm attrs cs, o !! "emailaddress" = Some (Tag nm attrs (email s :: cs))) /\
  (exists raw, o !! "name" = Some (NavigableString raw) /\
               PyStr.has_char "," raw = true) /\
  is_Some (o !! "primarymajor") /\
  o !! "classification" = Some (year s) /\
  o !! "photo" = Some (photo s).
Proof.
  unfold normalize. intros H.
  apply bind_OK in H as (a & Ha & H). apply getattr_OK in Ha.
  apply bind_OK in H as (a_parts & _ & H).
  apply bind_OK in H as (adv & _ & H).
  apply bind_OK in H as (e & He & H). apply getattr_OK in He.
  apply bind_OK in H as (mail & Hmail & H).
  apply bind_OK in H as (n & Hn & H). apply getattr_OK in Hn.
  apply bind_OK in H as (n_parts & Hsplit & H).
  destruct n_parts as [l | l].
  - apply bind_OK in H as (ln & _ & H).
    apply bind_OK in H as (fn & Hfn & H). apply or_raise_OK in Hfn.
    apply bind_OK in H as (m & Hm & H). apply getattr_OK in Hm.
    apply bind_OK in H as (m_parts & _ & H).
    apply bind_OK in H as (mj & _ & H).
    apply bind_OK in H as (y & Hy & H). apply getattr_OK in Hy.
    apply bind_OK in H as (ph & Hph & H). apply getattr_OK in Hph.
    injection H as <-. simpl.
    split; [rewrite Ha; eauto |]. split.
    { destruct e as [? | nm attrs cs]; simpl in Hmail; [discriminate |].
      destruct cs as [|c cs]; simpl in Hmail; [discriminate |].
      injection Hmail as <-. eauto. }
    split.
    { destruct n as [raw | ? ? ?]; simpl in Hsplit.
      - injection Hsplit as <-. exists raw. split; [exact Hn |].
        eapply split_second_has_sep; exact Hfn.
      - destruct (find "split" _); discriminate. }
    split; [rewrite Hm; eauto |]. auto.
  - apply bind_OK in H as (? & _ & H). apply bind_OK in H as (? & _ & H).
    discriminate H.
Qed.

Lemma record_needs_all_attributes_witness :
  normalize Sample.alice_attrs = OK Sample.alice_record /\
  is_Some (Sample.alice_attrs !! "advisor") /\
  (exists nm attrs cs,
      Sample.alice_attrs !! "emailaddress"
      = Some (Tag nm attrs (email Sample.alice_record :: cs))) /\
  (exists raw, Sample.alice_attrs !! "name" = Some (NavigableString raw) /\
               PyStr.has_char "," raw = true) /\
  is_Some (Sample.alice_attrs !! "primarymajor") /\
  Sample.alice_attrs !! "classification" = Some (year Sample.alice_record) /\
  Sample.alice_attrs !! "photo" = Some (photo Sample.alice_record).
Proof.
  split; [vm_compute; reflexivity |].
  apply (record_needs_all_attributes Sample.alice_attrs Sample.alice_record).
  vm_compute; reflexivity.
Defined.

(** X7: a name without comma, such as a single word, is refused with
    IndexError when the first name is asked for, provided the advisor is
    text and the email address is an element with a child, so that the
    statements before it pass. *)
Theorem name_without_comma_refused
    (o : namespace) (a raw nm : string) (attrs : gmap string string) (c : node) (cs : list node) :
  o !! "advisor" = Some (NavigableString a) ->
  o !! "emailaddress" = Some (Tag nm attrs (c :: cs)) ->
  o !! "name" = Some (NavigableString raw) ->
  PyStr.has_char "," raw = false ->
  normalize o = Raise IndexError.
Proof.
  intros Ha He Hn Hcomma. unfold normalize, getattr.
  rewrite Ha, He, Hn. simpl. rewrite (split_none _ _ Hcomma). reflexivity.
Qed.

Lemma name_without_comma_refused_witness :
  Cases.mononym_attrs !! "advisor" = Some (NavigableString "Jones, Bob") /\
  Cases.mononym_attrs !! "emailaddress" = Some (Sample.mail_link "asmith@upenn.edu") /\
  Cases.mononym_attrs !! "name" = Some (NavigableString "Cher") /\
  PyStr.has_char "," "Cher" = false /\
  normalize Cases.mononym_attrs = Raise IndexError.
Proof.
  repeat (split; [vm_compute; reflexivity |]).
  apply (name_without_comma_refused Cases.mononym_attrs "Jones, Bob" "Cher" "a"
           (list_to_map [("href", "mailto:asmith@upenn.edu")])
           (Sample.text "asmith@upenn.edu") []);
    vm_compute; reflexivity.
Defined.

(** ** The major *)

Lemma string_of_snoc (l : list ascii) (c : ascii) (x : string) :
  string_of_list_ascii (l ++ [c]) +:+ x = string_of_list_ascii l +:+ String c x.
Proof. induction l as [|a l IH]; simpl; [reflexivity | now rewrite IH]. Qed.

(** With a word under way, the first word goes on to the next blank. *)
Lemma split_ws_aux_word (cur : list ascii) (s w : string) (ws : list string) :
  cur <> [] ->
  PyStr.split_ws_aux cur s = w :: ws ->
  exists w' rest,
    s = w' +:+ rest /\ no_blank w' = true /\
    (rest = "" \/ exists c rest', rest = String c rest' /\ PyStr.is_space c = true) /\
    w = string_of_list_ascii (rev cur) +:+ w'.
Proof.
  revert cur. induction s as [|c s IH]; intros cur Hcur H.
  - destruct cur as [|a cur]; [contradiction |].
    cbn [PyStr.split_ws_aux] in H. injection H as <- _. exists "", "".
    split; [reflexivity |]. split; [reflexivity |]. split; [now left |].
    symmetry. apply append_empty_r.
  - cbn [PyStr.split_ws_aux] in H. destruct (PyStr.is_space c) eqn:Hc.
    + destruct cur as [|a cur]; [contradiction |].
      cbn [app] in H. injection H as <- _.
      exists "", (String c s).
      split; [reflexivity |]. split; [reflexivity |]. split.
      * right. eauto.
      * symmetry. apply append_empty_r.
    + apply IH in H as (w' & rest & -> & Hw' & Hrest & ->); [| discriminate].
      exists (String c w'), rest.
      split; [reflexivity |]. split; [simpl; now rewrite Hc |].
      split; [exact Hrest |]. cbn [rev]. apply string_of_snoc.
Qed.

(** The first word of a text: after the leading blanks, up to the next
    blank. *)
Lemma split_ws_first (s w : string) (ws : list string) :
  PyStr.split_ws s = w :: ws ->
  exists pre rest,
    s = pre +:+ w +:+ rest /\ all_blank pre = true /\
    no_blank w = true /\ w <> "" /\
    (rest = "" \/ exists c rest', rest = String c rest' /\ PyStr.is_space c = true).
Proof.
  unfold PyStr.split_ws. induction s as [|c s IH]; intros H.
  - discriminate H.
  - simpl in H. destruct (PyStr.is_space c) eqn:Hc.
    + simpl in H. apply IH in H as (pre & rest & -> & Hpre & Hw & Hne & Hrest).
      exists (String c pre), rest. simpl. rewrite Hc. auto.
    + apply split_ws_aux_word in H as (w' & rest & -> & Hw' & Hrest & ->);
        [| discriminate].
      exists "", rest. simpl.
      split; [reflexivity |]. split; [reflexivity |].
      split; [now rewrite Hc |]. split; [discriminate | exact Hrest].
Qed.

(** X8: when the primary major is text, the record's major is its first
    word: the text is some blanks, the major, and then nothing or a
    blank and whatever follows; the major itself is not empty and holds
    no blank. "Physics BA/MA" gives "Physics". *)
Theorem major_is_first_word (o : namespace) (s : student) (raw : string) :
  normalize o = OK s ->
  o !! "primarymajor" = Some (NavigableString raw) ->
  exists pre w rest,
    major s = NavigableString w /\
    raw = pre +:+ w +:+ rest /\
    all_blank pre = true /\ no_blank w = true /\ w <> "" /\
    (rest = "" \/ exists c rest', rest = String c rest' /\ PyStr.is_space c = true).
Proof.
  unfold normalize. intros H Hraw.
  do 6 (apply bind_OK in H as (? & _ & H)).
  apply bind_OK in H as (n_parts & _ & H).
  destruct n_parts as [l | l].
  - do 2 (apply bind_OK in H as (? & _ & H)).
    apply bind_OK in H as (m & Hm & H). apply getattr_OK in Hm.
    rewrite Hraw in Hm. injection Hm as <-.
    apply bind_OK in H as (m_parts & Hparts & H).
    simpl in Hparts. injection Hparts as <-.
    apply bind_OK in H as (mj & Hmj & H).
    do 2 (apply bind_OK in H as (? & _ & H)).
    injection H as <-. simpl.
    simpl in Hmj. destruct (PyStr.split_ws raw) as [|w ws] eqn:Hws; [discriminate Hmj |].
    simpl in Hmj. injection Hmj as <-.
    destruct (split_ws_first _ _ _ Hws) as (pre & rest & Hshape).
    exists pre, w, rest. split; [reflexivity | exact Hshape].
  - do 2 (apply bind_OK in H as (? & _ & H)). discriminate H.
Qed.

Lemma major_is_first_word_witness :
  normalize Cases.spaced_major_attrs = OK Sample.alice_record /\
  Cases.spaced_major_attrs !! "primarymajor" = Some (NavigableString "  Physics BA/MA") /\
  exists pre w rest,
    major Sample.alice_record = NavigableString w /\
    "  Physics BA/MA" = pre +:+ w +:+ rest /\
    all_blank pre = true /\ no_blank w = true /\ w <> "" /\
    (rest = "" \/ exists c rest', rest = String c rest' /\ PyStr.is_space c = true).
Proof.
  split; [vm_compute; reflexivity |].
  split; [vm_compute; reflexivity |].
  apply (major_is_first_word Cases.spaced_major_attrs Sample.alice_record "  Physics BA/MA");
    vm_compute; reflexivity.
Defined.

(** ** Reading the page *)

Lemma process_rows_Raise (unquote : string -> string) (rows : list node) (e : exn) :
  process_rows unquote rows = Raise e ->
  exists pre r post done,
    rows = (pre ++ r :: post)%list /\
    process_rows unquote pre = OK done /\
    process_row unquote r = Raise e.
Proof.
  induction rows as [|r rows IH]; simpl; [discriminate |].
  destruct (process_row unquote r) as [o | e'] eqn:Hr; simpl.
  - destruct (process_rows unquote rows) as [os | e'] eqn:Hrows; simpl; [discriminate |].
    intros [= <-].
    destruct (IH eq_refl) as (pre & r' & post & done & -> & Hpre & Hr').
    exists (r :: pre), r', post, (o :: done). simpl. rewrite Hr, Hpre. auto.
  - intros [= <-]. exists [], r, rows, []. auto.
Qed.

(** X9: when the title, the course link and the table are in order and
    reading the roster still fails, then some row failed: the rows
    before it were all processed, and the error of the run is the error
    of that first failing row. No roster is returned for the rows that
    were fine. *)
Theorem first_failing_row_decides
    (decode : node -> string) (unquote : string -> string)
    (soup c : node) (rows : list node) (e : exn) :
  check_title soup = OK () ->
  read_course_name decode soup = OK c ->
  class_rows soup = OK rows ->
  read_roster decode unquote soup = Raise e ->
  exists pre r post done,
    rows = (pre ++ r :: post)%list /\
    process_rows unquote pre = OK done /\
    process_row unquote r = Raise e.
Proof.
  intros Htitle Hcourse Hrows H. unfold read_roster in H.
  rewrite Htitle in H. simpl in H. rewrite Hcourse in H. simpl in H.
  rewrite Hrows in H. simpl in H.
  destruct (process_rows unquote rows) as [roster | e'] eqn:Hproc; simpl in H;
    [discriminate H |].
  injection H as <-. apply process_rows_Raise. exact Hproc.
Qed.

Lemma first_failing_row_decides_witness :
  check_title Cases.gap_page = OK () /\
  read_course_name Sample.decode Cases.gap_page
    = OK (NavigableString "PHYS-0150-401-202610") /\
  class_rows Cases.gap_page = OK [Sample.alice; Sample.no_advisor; Sample.maria] /\
  read_roster Sample.decode Sample.unquote Cases.gap_page
    = Raise (AttributeError "advisor") /\
  exists pre r post done,
    [Sample.alice; Sample.no_advisor; Sample.maria] = (pre ++ r :: post)%list /\
    process_rows Sample.unquote pre = OK done /\
    process_row Sample.unquote r = Raise (AttributeError "advisor").
Proof.
  repeat (split; [vm_compute; reflexivity |]).
  apply (first_failing_row_decides Sample.decode Sample.unquote Cases.gap_page
           (NavigableString "PHYS-0150-401-202610"));
    vm_compute; reflexivity.
Defined.

(** X10: a page whose title, once stripped, is not "Instructor Class
    List" is refused with AssertionError before anything else is looked
    at: whatever links, table and rows it holds, and whatever the
    directory holds, the run copies nothing and builds no deck. *)
Theorem wrong_title_refused
    (decode : node -> string) (unquote : string -> string) (hash : string -> Z)
    (soup t : node) (s : string) (fs : files) :
  find "title" soup = Some t ->
  get_string t = Some s ->
  PyStr.strip s <> "Instructor Class List" ->
  read_roster decode unquote soup = Raise AssertionError /\
  main decode unquote hash soup fs = Raise AssertionError.
Proof.
  intros Ht Hs Hne.
  assert (Htitle : check_title soup = Raise AssertionError).
  { unfold check_title. rewrite Ht. simpl. rewrite Hs. simpl.
    apply String.eqb_neq in Hne. now rewrite Hne. }
  assert (Hread : read_roster decode unquote soup = Raise AssertionError).
  { unfold read_roster. now rewrite Htitle. }
  split; [exact Hread |]. unfold main. now rewrite Hread.
Qed.

Lemma wrong_title_refused_witness :
  find "title" Cases.other_page
    = Some (Sample.elem "title" [] [Sample.text " Course Search "]) /\
  get_string (Sample.elem "title" [] [Sample.text " Course Search "])
    = Some " Course Search " /\
  PyStr.strip " Course Search " <> "Instructor Class List" /\
  read_roster Sample.decode Sample.unquote Cases.other_page = Raise AssertionError /\
  main Sample.decode Sample.unquote (Sample.hash_in_run 0) Cases.other_page Sample.downloads
    = Raise AssertionError.
Proof.
  split; [vm_compute; reflexivity |].
  split; [vm_compute; reflexivity |].
  split; [vm_compute; discriminate |].
  apply (wrong_title_refused Sample.decode Sample.unquote (Sample.hash_in_run 0)
           Cases.other_page (Sample.elem "title" [] [Sample.text " Course Search "])
           " Course Search " Sample.downloads);
    first [vm_compute; reflexivity | vm_compute; discriminate].
Defined.

(** X11: a roster is returned only for a page that carries the title
    "Instructor Class List" (white space around it apart), has a link
    showing a list address, and has a class-list table; the roster then
    has one record for each entry of that table. These are the page's
    own features, so that a page lacking one of them is never read. *)
Theorem roster_needs_title_link_and_table
    (decode : node -> string) (unquote : string -> string)
    (soup c : node) (roster : list student) :
  read_roster decode unquote soup = OK (c, roster) ->
  titled soup = true /\
  is_Some (List.find (shows_list_address decode) (find_all "a" soup)) /\
  is_Some (find_class "table" "ClassListTable" soup) /\
  length roster = length (class_list_entries soup).
Proof.
  intros H. apply read_roster_OK in H as (Htitle & Hcourse & rows & Hrows & Hproc).
  unfold class_rows in Hrows.
  apply bind_OK in Hrows as (tb & Htb & Hrows). apply or_raise_OK in Htb.
  injection Hrows as <-.
  split; [| split; [| split]].
  - unfold check_title in Htitle.
    apply bind_OK in Htitle as (t & Ht & Htitle). apply or_raise_OK in Ht.
    apply bind_OK in Htitle as (s & Hs & Htitle). apply or_raise_OK in Hs.
    unfold titled. rewrite Ht, Hs.
    destruct (String.eqb (PyStr.strip s) "Instructor Class List");
      [reflexivity | discriminate Htitle].
  - unfold read_course_name in Hcourse.
    apply bind_OK in Hcourse as (a & Ha & _). apply or_raise_OK in Ha.
    unfold list_links in Ha. rewrite find_head_filter in Ha.
    exists a. exact Ha.
  - rewrite Htb. eauto.
  - unfold class_list_entries. rewrite Htb.
    apply process_rows_OK in Hproc. symmetry. eapply Forall2_length. exact Hproc.
Qed.

Lemma roster_needs_title_link_and_table_witness :
  read_roster Sample.decode Sample.unquote Sample.roster_page
    = OK (NavigableString "PHYS-0150-401-202610",
          [Sample.alice_record; Sample.maria_record]) /\
  titled Sample.roster_page = true /\
  is_Some (List.find (shows_list_address Sample.decode) (find_all "a" Sample.roster_page)) /\
  is_Some (find_class "table" "ClassListTable" Sample.roster_page) /\
  length [Sample.alice_record; Sample.maria_record]
    = length (class_list_entries Sample.roster_page).
Proof.
  split; [vm_compute; reflexivity |].
  apply (roster_needs_title_link_and_table Sample.decode Sample.unquote Sample.roster_page
           (NavigableString "PHYS-0150-401-202610")).
  vm_compute; reflexivity.
Defined.

(** ** More on the photo copies *)

(** Copies change what the directory stores, never which file a path
    names nor where a file can be written. *)
Lemma rename_photos_same_directory (roster out : list student) (fs fs' : files) :
  rename_photos roster fs = OK (out, fs') ->
  identity fs' = identity fs /\ creatable fs' = creatable fs.
Proof.
  revert fs out. induction roster as [|r roster IH]; intros fs out H.
  - simpl in H. now injection H as <- <-.
  - apply rename_photos_cons in H as (r' & fs1 & rs' & H1 & H2 & ->).
    apply rename_photo_OK in H1 as (_ & data & _ & _ & _ & -> & _).
    apply IH in H2 as [-> ->]. split; reflexivity.
Qed.

(** The loop writes to the files of the new names only. *)
Lemma rename_photos_store_untouched (roster out : list student) (fs fs' : files)
    (k : string) :
  rename_photos roster fs = OK (out, fs') ->
  Forall (fun r => identity fs (new_file_name r) <> k) roster ->
  store fs' !! k = store fs !! k.
Proof.
  revert fs out. induction roster as [|r roster IH]; intros fs out H Hq.
  - simpl in H. now injection H as <- <-.
  - inversion Hq as [|? ? Hr Hrest]; subst.
    apply rename_photos_cons in H as (r' & fs1 & rs' & H1 & H2 & ->).
    apply rename_photo_OK in H1 as (_ & data & _ & _ & _ & -> & _).
    rewrite (IH _ _ H2 Hrest).
    change (store (<[new_file_name r := data]> fs))
      with (<[identity fs (new_file_name r) := data]> (store fs)).
    now apply lookup_insert_ne.
Qed.

Lemma rename_photos_untouched (roster out : list student) (fs fs' : files) (q : string) :
  rename_photos roster fs = OK (out, fs') ->
  Forall (fun r => identity fs (new_file_name r) <> identity fs q) roster ->
  fs' !! q = fs !! q.
Proof.
  intros H Hq. unfold lookup, files_lookup.
  destruct (rename_photos_same_directory _ _ _ _ H) as [-> _].
  eapply rename_photos_store_untouched; eauto.
Qed.






(** X14: the file name given to a photo holds no space, is in lower
    case, starts with "photo-" and ends with ".jpg", whatever the names
    of the student. *)
Theorem new_file_name_shape (r : student) :
  PyStr.has_char " " (new_file_name r) = false /\
  PyStr.lower (new_file_name r) = new_file_name r /\
  exists mid, new_file_name r = "photo-" +:+ mid +:+ ".jpg".
Proof.
  split; [| split].
  - unfold new_file_name. apply replace_removes. reflexivity.
  - unfold new_file_name. apply lower_replace; [reflexivity |].
    rewrite !lower_app, !lower_idempotent. reflexivity.
  - rewrite new_file_name_spec. unfold photo_file_name.
    exists (hyphenate (PyStr.lower (lname r)) +:+ "-" +:+ hyphenate (PyStr.lower (fname r))).
    now rewrite !append_assoc.
Qed.

(** ** Running the copies again *)

Lemma names_cases (f : student -> string) (l : list student) (k : string) :
  Forall (fun r => f r <> k) l \/ Exists (fun r => f r = k) l.
Proof.
  induction l as [|r l [IH | IH]].
  - left. constructor.
  - destruct (decide (f r = k)) as [Heq | Hne].
    + right. now left.
    + left. now constructor.
  - right. now right.
Qed.

(** Two states of one directory that hold the same photos get the same
    copies: the loop ends alike on both, and afterwards they agree on
    every file written, while every other file is as it was in each.
    The photos must not themselves be files that new names stand for,
    and the new names must be open to writing. *)
Lemma rename_photos_agree (l out : list student) (fa fb fa' : files) :
  identity fb = identity fa -> creatable fb = creatable fa ->
  Forall (fun r => forall st, creatable fa st (new_file_name r) = None) l ->
  Forall (fun r => forall p, photo r = NavigableString p ->
                   Forall (fun r' => identity fa p <> identity fa (new_file_name r')) l) l ->
  (forall r p, r ∈ l -> photo r = NavigableString p -> fb !! p = fa !! p) ->
  rename_photos l fa = OK (out, fa') ->
  exists fb',
    rename_photos l fb = OK (out, fb') /\
    (forall k, Exists (fun r => identity fa (new_file_name r) = k) l ->
               store fb' !! k = store fa' !! k) /\
    (forall k, Forall (fun r => identity fa (new_file_name r) <> k) l ->
               store fb' !! k = store fb !! k).
Proof.
  revert out fa fb.
  induction l as [|r l IH]; intros out fa fb Hid Hcr Hw Hdis Hsame Ha.
  - simpl in Ha. injection Ha as <- <-. exists fb.
    split; [reflexivity |]. split; [| reflexivity].
    intros q Hq. inversion Hq.
  - apply rename_photos_cons in Ha as (r' & fa1 & rs' & H1 & H2 & ->).
    apply rename_photo_OK in H1 as (p & data & Hp & Hd & Hne & -> & ->).
    inversion Hdis as [|? ? Hr Hl]; subst.
    inversion Hw as [|? ? Hwr Hwl]; subst.
    assert (Hb : fb !! p = Some data).
    { rewrite (Hsame r p); [exact Hd | now left | exact Hp]. }
    assert (Hstep : rename_photo r fb
                    = OK (set_photo_renamed r (new_file_name r),
                          <[new_file_name r := data]> fb)).
    { unfold rename_photo. rewrite Hp, (copy_ready _ _ _ _ Hb); [reflexivity | |].
      - now rewrite Hid.
      - rewrite Hcr. apply Hwr. }
    destruct (IH rs' (<[new_file_name r := data]> fa) (<[new_file_name r := data]> fb))
      as (fb' & Hrun & Hnames & Hothers).
    + exact Hid.
    + exact Hcr.
    + exact Hwl.
    + eapply Forall_impl; [exact Hl |]. intros r0 Hr0 p0 Hp0.
      specialize (Hr0 p0 Hp0). now inversion Hr0.
    + intros r0 p0 Hin Hp0.
      assert (Hp0n : identity fa (new_file_name r) <> identity fa p0).
      { rewrite Forall_forall in Hl. specialize (Hl r0 Hin p0 Hp0).
        inversion Hl; subst. congruence. }
      rewrite !files_lookup_insert_ne by (rewrite ?Hid; exact Hp0n).
      apply (Hsame r0 p0); [now right | exact Hp0].
    + exact H2.
    + exists fb'. split; [| split].
      * apply rename_photos_cons. eauto 10.
      * intros k Hk.
        destruct (names_cases (fun r => identity fa (new_file_name r)) l k)
          as [Hnot | Hin]; [| now apply Hnames].
        rewrite (Hothers k Hnot), (rename_photos_store_untouched _ _ _ _ _ H2 Hnot).
        inversion Hk as [? ? Hhead | ? ? Htail]; subst.
        -- change (store (<[new_file_name r := data]> fb))
             with (<[identity fb (new_file_name r) := data]> (store fb)).
           change (store (<[new_file_name r := data]> fa))
             with (<[identity fa (new_file_name r) := data]> (store fa)).
           rewrite Hid. now rewrite !lookup_insert_eq.
        -- exfalso. rewrite Forall_forall in Hnot. apply Exists_exists in Htail.
           destruct Htail as (r0 & Hin0 & Heq0). exact (Hnot r0 Hin0 Heq0).
      * intros k Hk. inversion Hk as [|? ? Hhead Htail]; subst.
        rewrite (Hothers k Htail).
        change (store (<[new_file_name r := data]> fb))
          with (<[identity fb (new_file_name r) := data]> (store fb)).
        rewrite Hid. now apply lookup_insert_ne.
Qed.

(** X15: the copies can be made again. When no photo of the roster is a
    file that one of the new names stands for, and the new names can be
    written whatever files are there, renaming the photos a second time
    in the directory left by the first time ends well too, with the same
    renamed roster, and leaves that directory exactly as it is. *)
Theorem rename_photos_again_changes_nothing
    (roster out : list student) (fs fs' : files) :
  Forall (fun r => forall p, photo r = NavigableString p ->
                   Forall (fun r' => identity fs p <> identity fs (new_file_name r'))
                          roster) roster ->
  Forall (fun r => forall st, creatable fs st (new_file_name r) = None) roster ->
  rename_photos roster fs = OK (out, fs') ->
  rename_photos roster fs' = OK (out, fs').
Proof.
  intros Hdis Hw Hrun.
  destruct (rename_photos_same_directory _ _ _ _ Hrun) as [Hid Hcr].
  destruct (rename_photos_agree roster out fs fs' fs' Hid Hcr Hw Hdis)
    as (fb' & Hagain & Hnames & Hothers).
  - intros r p Hin Hp.
    eapply rename_photos_untouched; [exact Hrun |].
    rewrite Forall_forall in Hdis. specialize (Hdis r Hin p Hp).
    eapply Forall_impl; [exact Hdis |]. intros r' Hne Heq. now apply Hne.
  - exact Hrun.
  - destruct (rename_photos_same_directory _ _ _ _ Hagain) as [Hid' Hcr'].
    assert (Hstore : store fb' = store fs').
    { apply map_eq. intros k.
      destruct (names_cases (fun r => identity fs (new_file_name r)) roster k)
        as [Hnot | Hin].
      - apply Hothers. exact Hnot.
      - apply Hnames. exact Hin. }
    replace fs' with fb' at 2; [exact Hagain |].
    destruct fb', fs'. simpl in *. now subst.
Qed.

Lemma rename_photos_again_changes_nothing_witness :
  Forall (fun r => forall p, photo r = NavigableString p ->
                   Forall (fun r' => identity Sample.downloads p
                                     <> identity Sample.downloads (new_file_name r'))
                          [Sample.alice_record; Sample.maria_record; Sample.alice2_record])
         [Sample.alice_record; Sample.maria_record; Sample.alice2_record] /\
  Forall (fun r => forall st, creatable Sample.downloads st (new_file_name r) = None)
         [Sample.alice_record; Sample.maria_record; Sample.alice2_record] /\
  rename_photos [Sample.alice_record; Sample.maria_record; Sample.alice2_record]
                Sample.downloads
    = OK (map renamed [Sample.alice_record; Sample.maria_record; Sample.alice2_record],
          Sample.namesakes_after) /\
  rename_photos [Sample.alice_record; Sample.maria_record; Sample.alice2_record]
                Sample.namesakes_after
    = OK (map renamed [Sample.alice_record; Sample.maria_record; Sample.alice2_record],
          Sample.namesakes_after).
Proof.
  assert (Hdis :
    Forall (fun r => forall p, photo r = NavigableString p ->
                     Forall (fun r' => identity Sample.downloads p
                                       <> identity Sample.downloads (new_file_name r'))
                            [Sample.alice_record; Sample.maria_record; Sample.alice2_record])
           [Sample.alice_record; Sample.maria_record; Sample.alice2_record]).
  { repeat constructor; injection H as <-; vm_compute; discriminate. }
  assert (Hw :
    Forall (fun r => forall st, creatable Sample.downloads st (new_file_name r) = None)
           [Sample.alice_record; Sample.maria_record; Sample.alice2_record]).
  { repeat constructor; intros st; vm_compute; reflexivity. }
  split; [exact Hdis |]. split; [exact Hw |]. split; [vm_compute; reflexivity |].
  apply (rename_photos_again_changes_nothing _ _ Sample.downloads _ Hdis Hw).
  vm_compute; reflexivity.
Defined.

(** ** The deck in general *)

Section DeckShape.

Variable decode : node -> string.
Variable hash : string -> Z.



(** X17: [make_flashcards] needs every photo renamed first: if some
    record of the roster has no [photo_renamed], as all records have
    when they come from [read_roster], it raises the attribute error on
    photo_renamed and returns no deck. *)
Theorem unrenamed_record_refused (c : node) (roster : list student) :
  Exists (fun o => photo_renamed o = None) roster ->
  make_flashcards decode hash c roster = Raise (AttributeError "photo_renamed").
Proof.
  intros Hex. unfold make_flashcards.
  set (m := make_model _).
  assert (Hadd : forall ns ms,
             add_notes decode m c roster ns ms = Raise (AttributeError "photo_renamed")).
  { induction Hex as [o roster Ho | o roster Hex IH]; intros ns ms; simpl.
    - unfold make_note. rewrite Ho. reflexivity.
    - unfold make_note. destruct (photo_renamed o) as [p |]; simpl; [apply IH | reflexivity]. }
  now rewrite Hadd.
Qed.

End DeckShape.


Lemma unrenamed_record_refused_witness :
  Exists (fun o => photo_renamed o = None) [Sample.alice_record; Sample.maria_record] /\
  make_flashcards Sample.decode (Sample.hash_in_run 0) (Sample.text "PHYS-0150-401-202610")
      [Sample.alice_record; Sample.maria_record]
    = Raise (AttributeError "photo_renamed").
Proof.
  assert (Hex : Exists (fun o => photo_renamed o = None)
                       [Sample.alice_record; Sample.maria_record])
    by (left; reflexivity).
  split; [exact Hex |].
  exact (unrenamed_record_refused Sample.decode (Sample.hash_in_run 0)
           (Sample.text "PHYS-0150-401-202610") _ Hex).
Defined.
